(** * vscode-llm2api: the OpenAI-compatible gateway in front of the VS Code
    language-model capability.

    Shallow embedding of [chat-sample/src/openai-api.ts] (the translator
    [VSCodeOpenAIAPI] and the wrapper [OpenAIAPIServer]) and of the HTTP
    server [VSCodeLLMServer], followed by the properties of the
    specification that concern them.

    Conventions.
    - JavaScript strings are [string]; [String.length] is [.length].
    - [async] functions are computations in a state-and-exception monad
      [M S A]; the state [S] holds what the code mutates ([this.models],
      the [res] object) together with the record of calls made on the
      provider capability.
    - The external capabilities ([vscode.lm], [Date.now], [Math.random])
      are parameters of the development. *)

From Stdlib Require Import String Ascii List ZArith Lia Bool.
Import ListNotations.
Local Open Scope string_scope.

(* ================================================================== *)
(** ** JavaScript values, exceptions and the effect monad *)
(* ================================================================== *)

(** Values that can be thrown.  [vscode.LanguageModelError] is a subclass
    of [Error]; [Error] stands for every other [Error] instance
    ([SyntaxError], [TypeError], ...); [NonError] is a thrown value that
    is not an instance of [Error]. *)
Inductive JsError : Type :=
| LanguageModelError (message code : string)
| Error (message : string)
| NonError.

Definition instanceof_Error (e : JsError) : bool :=
  match e with
  | NonError => false
  | _ => true
  end.

Definition error_message (e : JsError) : string :=
  match e with
  | LanguageModelError m _ => m
  | Error m => m
  | NonError => EmptyString
  end.

Inductive JsResult (A : Type) : Type :=
| Ok (a : A)
| Throw (e : JsError).
Arguments Ok {A} a.
Arguments Throw {A} e.

(** Computations over a mutable state [S] that may throw.  The state
    reached at the point of the throw is kept: assignments made before an
    exception are not rolled back. *)
Definition M (S A : Type) : Type := S -> JsResult A * S.

Definition ret {S A} (a : A) : M S A := fun s => (Ok a, s).

Definition throw {S A} (e : JsError) : M S A := fun s => (Throw e, s).

Definition bind {S A B} (c : M S A) (k : A -> M S B) : M S B :=
  fun s =>
    match c s with
    | (Ok a, s') => k a s'
    | (Throw e, s') => (Throw e, s')
    end.

(** [try { body } catch (error) { handler }] *)
Definition try_catch {S A} (body : M S A) (handler : JsError -> M S A) : M S A :=
  fun s =>
    match body s with
    | (Ok a, s') => (Ok a, s')
    | (Throw e, s') => handler e s'
    end.

Definition modify {S} (f : S -> S) : M S unit := fun s => (Ok tt, f s).

(** Run a computation on the first component of a larger state. *)
Definition zoom {S T A} (c : M S A) : M (S * T) A :=
  fun st =>
    match c (fst st) with
    | (r, s') => (r, (s', snd st))
    end.

(** Run a computation on the second component of a larger state. *)
Definition zoom_snd {S T A} (c : M T A) : M (S * T) A :=
  fun st =>
    match c (snd st) with
    | (r, t') => (r, (fst st, t'))
    end.

Declare Scope js_scope.
Delimit Scope js_scope with js.
Notation "x <- c1 ;; c2" := (bind c1 (fun x => c2))
  (at level 61, c1 at next level, right associativity) : js_scope.
Notation "c1 ;; c2" := (bind c1 (fun _ => c2))
  (at level 61, right associativity) : js_scope.
Local Open Scope js_scope.

(** [for (const x of xs) body(x)] *)
Fixpoint for_of {S A} (xs : list A) (body : A -> M S unit) : M S unit :=
  match xs with
  | [] => ret tt
  | x :: rest => body x ;; for_of rest body
  end.

(* ------------------------------------------------------------------ *)
(** *** String and number primitives *)

(** [String.prototype.toLowerCase], on the ASCII range. *)
Definition lower_ascii (c : ascii) : ascii :=
  let n := nat_of_ascii c in
  if (65 <=? n)%nat && (n <=? 90)%nat then ascii_of_nat (n + 32) else c.

Fixpoint toLowerCase (s : string) : string :=
  match s with
  | EmptyString => EmptyString
  | String c rest => String (lower_ascii c) (toLowerCase rest)
  end.

(** [s.replace(pattern, replacement)] with a string pattern: only the
    first occurrence of the pattern is replaced. *)
Fixpoint replace (pattern replacement s : string) : string :=
  if String.prefix pattern s
  then replacement ++ substring (String.length pattern)
                                (String.length s - String.length pattern) s
  else match s with
       | EmptyString => EmptyString
       | String c rest => String c (replace pattern replacement rest)
       end.

(** [Array.prototype.join] on an array of strings. *)
Definition join (sep : string) (parts : list string) : string :=
  String.concat sep parts.

(** [Math.ceil(n / d)] for integers [n] and positive [d]: the quotient
    is exact in the rationals and then rounded up. *)
Definition Math_ceil_div (n d : Z) : Z := (- ((- n) / d))%Z.

(** [Math.floor(n / d)] *)
Definition Math_floor_div (n d : Z) : Z := (n / d)%Z.

(* ================================================================== *)
(** ** The provider capability ([vscode.lm]) and the host *)
(* ================================================================== *)

(** [vscode.LanguageModelChat]: the fields the code reads. *)
Record LanguageModelChat : Type := {
  vendor : string;
  family : string
}.

(** [vscode.LanguageModelChatMessage]: a user turn or an assistant turn. *)
Inductive LanguageModelChatMessage : Type :=
| User (content : string)
| Assistant (content : string).

(** [response.text]: an asynchronous sequence of fragments that either
    ends normally or throws after the fragments it has produced. *)
Record TextStream : Type := {
  fragments : list string;
  failure : option JsError
}.

(** The capability: [selectChatModels(selector)] with an optional vendor
    filter, and [model.sendRequest(messages, options, token)]. *)
Record ModelProvider : Type := {
  selectChatModels : option string -> JsResult (list LanguageModelChat);
  sendRequest : LanguageModelChat -> list LanguageModelChatMessage ->
                JsResult TextStream
}.

(** The host: [Date.now()] in milliseconds, the base-36 rendering of
    [Math.random()] and [new Date().toISOString()]. *)
Record Host : Type := {
  Date_now : Z;
  Math_random_toString36 : string;
  Date_toISOString : string
}.

(** A call made on the capability, as observed from outside. *)
Inductive ProviderCall : Type :=
| CallSelectChatModels (vendor_filter : option string)
| CallSendRequest (model : LanguageModelChat)
                  (messages : list LanguageModelChatMessage)
                  (justification : string).

(* ================================================================== *)
(** ** openai-api.ts: types *)
(* ================================================================== *)

Record ChatCompletionMessage : Type := {
  role : string;
  content : string
}.

(** [temperature] and [max_tokens] are never read by the code. *)
Record ChatCompletionRequest : Type := {
  model : option string;
  messages : list ChatCompletionMessage;
  stream : bool
}.

Inductive FinishReason : Type := stop | length_ | content_filter.

Record Choice : Type := {
  index : Z;
  message : ChatCompletionMessage;
  finish_reason : FinishReason
}.

Record Usage : Type := {
  prompt_tokens : Z;
  completion_tokens : Z;
  total_tokens : Z
}.

Record ChatCompletionResponse : Type := {
  resp_id : string;
  resp_object : string;
  resp_created : Z;
  resp_model : string;
  choices : list Choice;
  usage : Usage
}.

(** [delta]: both fields optional. *)
Record Delta : Type := {
  delta_role : option string;
  delta_content : option string
}.

(** [finish_reason] of a chunk: [None] is [null]. *)
Record StreamChoice : Type := {
  chunk_index : Z;
  delta : Delta;
  chunk_finish_reason : option FinishReason
}.

Record ChatCompletionStreamResponse : Type := {
  chunk_id : string;
  chunk_object : string;
  chunk_created : Z;
  chunk_model : string;
  chunk_choices : list StreamChoice
}.

(** The singleton [VSCodeOpenAIAPI]: its [models] field, and the calls
    it has made on the capability so far (most recent last). *)
Record World : Type := {
  models : list LanguageModelChat;
  calls : list ProviderCall
}.

Definition set_models (ms : list LanguageModelChat) : M World unit :=
  modify (fun w => {| models := ms; calls := calls w |}).

Definition record_call (c : ProviderCall) : M World unit :=
  modify (fun w => {| models := models w; calls := (calls w ++ [c])%list |}).

Definition this_models : M World (list LanguageModelChat) :=
  fun w => (Ok (models w), w).

(* ================================================================== *)
(** ** openai-api.ts: class VSCodeOpenAIAPI *)
(* ================================================================== *)

(** [`${model.vendor}-${model.family}`] *)
Definition composite (m : LanguageModelChat) : string :=
  vendor m ++ "-" ++ family m.

(** [!modelName] for an optional string: absent or empty. *)
Definition falsy (modelName : option string) : bool :=
  match modelName with
  | None => true
  | Some s => s =? EmptyString
  end.

(** [selectModel(modelName?)], with [this.models] passed explicitly.
    [models[0]] of the empty array is [undefined], here [None]. *)
Definition selectModel (this_models : list LanguageModelChat)
           (modelName : option string) : option LanguageModelChat :=
  match modelName with
  | None => nth_error this_models 0
  | Some name =>
      if falsy modelName then nth_error this_models 0
      else
        let exactMatch :=
          find (fun m => (composite m =? name) || (family m =? name))
               this_models in
        match exactMatch with
        | Some m => Some m
        | None => nth_error this_models 0
        end
  end.

(** [convertMessages(messages)] *)
Definition convertMessage (msg : ChatCompletionMessage) : LanguageModelChatMessage :=
  if role msg =? "system" then User (content msg)
  else if role msg =? "user" then User (content msg)
  else if role msg =? "assistant" then Assistant (content msg)
  else User (content msg).

Definition convertMessages (msgs : list ChatCompletionMessage)
  : list LanguageModelChatMessage :=
  map convertMessage msgs.

(** [estimateTokens(messages)] *)
Definition estimateTokens (msgs : list ChatCompletionMessage) : Z :=
  let text := join " " (map content msgs) in
  Math_ceil_div (Z.of_nat (String.length text)) 4.

(** [for await (const fragment of response.text) fullContent += fragment] *)
Definition accumulate {S} (response : TextStream) : M S string :=
  let fullContent := fold_left (fun acc fragment => acc ++ fragment)
                               (fragments response) EmptyString in
  match failure response with
  | None => ret fullContent
  | Some e => throw e
  end.

(** The [catch] clause shared by both completion paths. *)
Definition rethrow {S A} (error : JsError) : M S A :=
  match error with
  | LanguageModelError message code =>
      throw (Error ("Language Model Error: " ++ message ++ " (" ++ code ++ ")"))
  | _ => throw error
  end.

Definition first_chunk (id : string) (created : Z) (m : LanguageModelChat)
  : ChatCompletionStreamResponse :=
  {| chunk_id := id;
     chunk_object := "chat.completion.chunk";
     chunk_created := created;
     chunk_model := composite m;
     chunk_choices :=
       [ {| chunk_index := 0;
            delta := {| delta_role := Some "assistant"; delta_content := None |};
            chunk_finish_reason := None |} ] |}.

Definition content_chunk (id : string) (created : Z) (m : LanguageModelChat)
           (fragment : string) : ChatCompletionStreamResponse :=
  {| chunk_id := id;
     chunk_object := "chat.completion.chunk";
     chunk_created := created;
     chunk_model := composite m;
     chunk_choices :=
       [ {| chunk_index := 0;
            delta := {| delta_role := None; delta_content := Some fragment |};
            chunk_finish_reason := None |} ] |}.

Definition final_chunk (id : string) (created : Z) (m : LanguageModelChat)
  : ChatCompletionStreamResponse :=
  {| chunk_id := id;
     chunk_object := "chat.completion.chunk";
     chunk_created := created;
     chunk_model := composite m;
     chunk_choices :=
       [ {| chunk_index := 0;
            delta := {| delta_role := None; delta_content := None |};
            chunk_finish_reason := Some stop |} ] |}.

(** The state of a running generator: the API object and the chunks
    yielded so far, oldest first. *)
Definition GenState : Type := (World * list ChatCompletionStreamResponse)%type.

Definition yield (c : ChatCompletionStreamResponse) : M GenState unit :=
  modify (fun st => (fst st, (snd st ++ [c])%list)).

(** An [AsyncGenerator] that has not been started: its body. *)
Definition AsyncGenerator : Type := M GenState unit.

(** The [TypeError] of [model.sendRequest] when [model] is [undefined]:
    the call sits inside the [try] block of both completion paths. *)
Definition undefined_sendRequest : JsError :=
  Error "Cannot read properties of undefined (reading 'sendRequest')".

(** One element of the [data] array of [handleModels]. *)
Record ModelEntry : Type := {
  entry_id : string;
  entry_object : string;
  entry_created : Z;
  owned_by : string
}.

Section Translator.

Variable lm : ModelProvider.
Variable host : Host.

(** [vscode.lm.selectChatModels(selector)] *)
Definition lm_selectChatModels (vendor_filter : option string)
  : M World (list LanguageModelChat) :=
  record_call (CallSelectChatModels vendor_filter) ;;
  fun w => (selectChatModels lm vendor_filter, w).

(** [model.sendRequest(messages, { justification }, token)] *)
Definition model_sendRequest (m : LanguageModelChat)
           (msgs : list LanguageModelChatMessage) (justification : string)
  : M World TextStream :=
  record_call (CallSendRequest m msgs justification) ;;
  fun w => (sendRequest lm m msgs, w).

(** [initialize()] *)
Definition initialize : M World unit :=
  try_catch
    (ms <- lm_selectChatModels (Some "copilot") ;;
     set_models ms ;;
     ms <- this_models ;;
     (if (List.length ms =? 0)%nat
      then ms' <- lm_selectChatModels None ;; set_models ms'
      else ret tt) ;;
     ret tt)
    (fun _ =>
       throw (Error "No language models available. Please ensure GitHub Copilot or other LLM extensions are installed.")).

(** [listModels()] *)
Definition listModels : M World (list string) :=
  ms <- this_models ;; ret (map composite ms).

(** [if (this.models.length === 0) await this.initialize()] *)
Definition ensure_initialized : M World unit :=
  ms <- this_models ;;
  if (List.length ms =? 0)%nat then initialize else ret tt.

(** [generateId()] *)
Definition generateId : string :=
  "chatcmpl-" ++ substring 2 13 (Math_random_toString36 host).

(** [Math.floor(Date.now() / 1000)] *)
Definition now_seconds : Z := Math_floor_div (Date_now host) 1000.

(** [createChatCompletion(request)] *)
Definition createChatCompletion (request : ChatCompletionRequest)
  : M World ChatCompletionResponse :=
  ensure_initialized ;;
  ms <- this_models ;;
  let selected := selectModel ms (model request) in
  let msgs := convertMessages (messages request) in
  try_catch
    match selected with
    | None => throw undefined_sendRequest
    | Some m =>
        response <- model_sendRequest m msgs "OpenAI-like API request" ;;
        fullContent <- accumulate response ;;
        let prompt := estimateTokens (messages request) in
        let completion :=
          estimateTokens [ {| role := "assistant"; content := fullContent |} ] in
        ret {| resp_id := generateId;
               resp_object := "chat.completion";
               resp_created := now_seconds;
               resp_model := composite m;
               choices :=
                 [ {| index := 0;
                      message := {| role := "assistant"; content := fullContent |};
                      finish_reason := stop |} ];
               usage := {| prompt_tokens := prompt;
                           completion_tokens := completion;
                           total_tokens := (prompt + completion)%Z |} |}
    end
    rethrow.

(** [createChatCompletionStream(request)]: the generator body.  Nothing
    of it runs before the consumer pulls the first chunk. *)
Definition createChatCompletionStream (request : ChatCompletionRequest)
  : AsyncGenerator :=
  zoom ensure_initialized ;;
  ms <- zoom this_models ;;
  let selected := selectModel ms (model request) in
  let msgs := convertMessages (messages request) in
  let id := generateId in
  let created := now_seconds in
  try_catch
    match selected with
    | None => throw undefined_sendRequest
    | Some m =>
        response <- zoom (model_sendRequest m msgs
                                            "OpenAI-like API streaming request") ;;
        yield (first_chunk id created m) ;;
        for_of (fragments response)
               (fun fragment => yield (content_chunk id created m fragment)) ;;
        match failure response with
        | Some e => throw e
        | None => yield (final_chunk id created m)
        end
    end
    rethrow.

(* ---------------------------------------------------------------- *)
(** ** openai-api.ts: class OpenAIAPIServer *)

(** [handleChatCompletions(request)]: a buffered response, or a
    generator that has not been started. *)
Definition api_handleChatCompletions (request : ChatCompletionRequest)
  : M World (ChatCompletionResponse + AsyncGenerator) :=
  initialize ;;
  if stream request
  then ret (inr (createChatCompletionStream request))
  else r <- createChatCompletion request ;; ret (inl r).

(** [handleModels()] *)
Definition api_handleModels : M World (list ModelEntry) :=
  initialize ;;
  ids <- listModels ;;
  ret (map (fun modelId => {| entry_id := modelId;
                              entry_object := "model";
                              entry_created := now_seconds;
                              owned_by := "vscode" |}) ids).

End Translator.

(* ================================================================== *)
(** ** http-server.ts: class VSCodeLLMServer *)
(* ================================================================== *)

(** What [request.messages] can evaluate to after [JSON.parse].  The
    elements of an array are taken at the declared interface
    [ChatCompletionMessage]. *)
Inductive JsValue : Type :=
| undefined
| null
| boolean (b : bool)
| number (z : Z)
| text (s : string)
| object
| array (items : list ChatCompletionMessage).

(** [!v] is [negb (truthy v)]. *)
Definition truthy (v : JsValue) : bool :=
  match v with
  | undefined | null => false
  | boolean b => b
  | number z => negb (z =? 0)%Z
  | text s => negb (s =? EmptyString)
  | object | array _ => true
  end.

Definition Array_isArray (v : JsValue) : bool :=
  match v with
  | array _ => true
  | _ => false
  end.

Definition items_of (v : JsValue) : list ChatCompletionMessage :=
  match v with
  | array items => items
  | _ => []
  end.

(** The value [JSON.parse(body)] returns, read through the fields the
    server uses: [null], or a value whose fields [model] and [messages]
    read as given and whose field [stream] is truthy or not (all absent
    for a primitive). *)
Record RawRequest : Type := {
  raw_model : option string;
  raw_messages : JsValue;
  raw_stream : bool
}.

Inductive Json : Type :=
| JsonNull
| JsonValue (r : RawRequest).

(** A request body, represented by what [JSON.parse] makes of it. *)
Definition BodyText : Type := JsResult Json.

(** [http.IncomingMessage]: the method, the path name of the URL, and
    the body once the stream has ended (or the error it emitted). *)
Record IncomingMessage : Type := {
  method : string;
  pathname : string;
  body : JsResult BodyText
}.

(** What is handed to [res.write] or [res.end], before serialisation. *)
Inductive Payload : Type :=
| ErrorEnvelope (type message : string)
| CompletionJson (r : ChatCompletionResponse)
| SseData (chunk : ChatCompletionStreamResponse)
| SseDone
| ModelsJson (data : list ModelEntry)
| HealthJson (status timestamp server : string).

(** [http.ServerResponse]: headers set with [setHeader], the status line
    and headers of [writeHead], the data written, and whether [end] has
    been called. *)
Record ServerResponse : Type := {
  headers : list (string * string);
  head : option (Z * list (string * string));
  written : list Payload;
  ended : bool
}.

Definition fresh_response : ServerResponse :=
  {| headers := []; head := None; written := []; ended := false |}.

Definition setHeader (name value : string) : M ServerResponse unit :=
  modify (fun res => {| headers := (headers res ++ [(name, value)])%list;
                        head := head res;
                        written := written res;
                        ended := ended res |}).

(** [res.writeHead]: Node throws [ERR_HTTP_HEADERS_SENT] when the head
    has already been written. *)
Definition writeHead (statusCode : Z) (hs : list (string * string))
  : M ServerResponse unit :=
  fun res =>
    match head res with
    | Some _ =>
        (Throw (Error "Cannot write headers after they are sent to the client"), res)
    | None =>
        (Ok tt, {| headers := headers res;
                   head := Some (statusCode, hs);
                   written := written res;
                   ended := ended res |})
    end.

Definition write (data : Payload) : M ServerResponse unit :=
  modify (fun res => {| headers := headers res;
                        head := head res;
                        written := (written res ++ [data])%list;
                        ended := ended res |}).

(** [res.end(data?)] *)
Definition end_ (data : option Payload) : M ServerResponse unit :=
  modify (fun res => {| headers := headers res;
                        head := head res;
                        written := (written res ++ match data with
                                                   | Some d => [d]
                                                   | None => []
                                                   end)%list;
                        ended := true |}).

(** [sendError(res, statusCode, error, message)] *)
Definition sendError (statusCode : Z) (error message : string)
  : M ServerResponse unit :=
  writeHead statusCode [("Content-Type", "application/json")] ;;
  end_ (Some (ErrorEnvelope (replace " " "_" (toLowerCase error)) message)).

(** The state a request handler works on: the API singleton and [res]. *)
Definition GwState : Type := (World * ServerResponse)%type.

(** [for await (const chunk of generator) body(chunk)]: the generator is
    started on the current API state; [body] only touches [res], so the
    chunks are handed over in production order and an exception of the
    generator surfaces after the chunks it yielded before. *)
Definition for_await (generator : AsyncGenerator)
           (body : ChatCompletionStreamResponse -> M ServerResponse unit)
  : M GwState unit :=
  fun st =>
    match generator (fst st, []) with
    | (outcome, (w', chunks)) =>
        match for_of chunks body (snd st) with
        | (Ok _, res') => (outcome, (w', res'))
        | (Throw e, res') => (Throw e, (w', res'))
        end
    end.

(** [error instanceof Error ? error.message : fallback] *)
Definition message_or (error : JsError) (fallback : string) : string :=
  if instanceof_Error error then error_message error else fallback.

Section Server.

Variable lm : ModelProvider.
Variable host : Host.

(** [readRequestBody(req)] *)
Definition readRequestBody (req : IncomingMessage) : M GwState BodyText :=
  fun st => (body req, st).

(** [JSON.parse(body)] *)
Definition JSON_parse (b : BodyText) : M GwState Json :=
  fun st => (b, st).

(** [request.messages]: reading a property of [null] throws. *)
Definition request_messages (request : Json) : M GwState JsValue :=
  match request with
  | JsonNull => throw (Error "Cannot read properties of null (reading 'messages')")
  | JsonValue r => ret (raw_messages r)
  end.

(** The parsed value at the type [ChatCompletionRequest]. *)
Definition as_request (request : Json) : ChatCompletionRequest :=
  match request with
  | JsonNull => {| model := None; messages := []; stream := false |}
  | JsonValue r => {| model := raw_model r;
                      messages := items_of (raw_messages r);
                      stream := raw_stream r |}
  end.

(** [handleChatCompletions(req, res)].  The wrapper returns a generator
    exactly when [request.stream] holds, so the branch on
    [request.stream] is the case analysis on what it returned. *)
Definition handleChatCompletions (req : IncomingMessage) : M GwState unit :=
  b <- readRequestBody req ;;
  try_catch
    (request <- JSON_parse b ;;
     msgs <- request_messages request ;;
     if negb (truthy msgs) || negb (Array_isArray msgs)
     then
       zoom_snd (sendError 400 "Bad Request"
                           "messages field is required and must be an array")
     else
       response <- zoom (api_handleChatCompletions lm host (as_request request)) ;;
       match response with
       | inr generator =>
           zoom_snd (writeHead 200 [("Content-Type", "text/event-stream");
                                    ("Cache-Control", "no-cache");
                                    ("Connection", "keep-alive")]) ;;
           for_await generator (fun chunk => write (SseData chunk)) ;;
           zoom_snd (write SseDone) ;;
           zoom_snd (end_ None)
       | inl completion =>
           zoom_snd (writeHead 200 [("Content-Type", "application/json")]) ;;
           zoom_snd (end_ (Some (CompletionJson completion)))
       end)
    (fun error =>
       zoom_snd (sendError 400 "Bad Request" (message_or error "Invalid request"))).

(** [handleModels(req, res)] *)
Definition handleModels (req : IncomingMessage) : M GwState unit :=
  try_catch
    (data <- zoom (api_handleModels lm host) ;;
     zoom_snd (writeHead 200 [("Content-Type", "application/json")]) ;;
     zoom_snd (end_ (Some (ModelsJson data))))
    (fun error =>
       zoom_snd (sendError 500 "Internal Server Error"
                           (message_or error "Failed to get models"))).

(** [handleHealth(req, res)] *)
Definition handleHealth (req : IncomingMessage) : M GwState unit :=
  zoom_snd (writeHead 200 [("Content-Type", "application/json")]) ;;
  zoom_snd (end_ (Some (HealthJson "healthy" (Date_toISOString host)
                                   "VS Code LLM API"))).

(** [handleRequest(req, res)] *)
Definition handleRequest (req : IncomingMessage) : M GwState unit :=
  zoom_snd (setHeader "Access-Control-Allow-Origin" "*") ;;
  zoom_snd (setHeader "Access-Control-Allow-Methods" "GET, POST, OPTIONS") ;;
  zoom_snd (setHeader "Access-Control-Allow-Headers" "Content-Type, Authorization") ;;
  if method req =? "OPTIONS"
  then zoom_snd (writeHead 200 []) ;; zoom_snd (end_ None)
  else
    try_catch
      (if (pathname req =? "/v1/chat/completions") && (method req =? "POST")
       then handleChatCompletions req
       else if (pathname req =? "/v1/models") && (method req =? "GET")
       then handleModels req
       else if (pathname req =? "/health") && (method req =? "GET")
       then handleHealth req
       else zoom_snd (sendError 404 "Not Found"
                                "The requested endpoint was not found"))
      (fun error =>
         zoom_snd (sendError 500 "Internal Server Error"
                             (message_or error "Unknown error"))).

(** A request served on a fresh [res]. *)
Definition serve (req : IncomingMessage) (w : World)
  : JsResult unit * GwState :=
  handleRequest req (w, fresh_response).

End Server.

(** The status code of a response, once its head is written. *)
Definition statusCode (res : ServerResponse) : option Z :=
  option_map fst (head res).

(* ================================================================== *)
(** ** Reading the specification *)
(* ================================================================== *)

(** Model selection as the specification words it: the first model
    whose composite identifier equals the name, else the first model
    whose bare family label equals it, else the first cached model. *)
Definition selectModel_spec (this_models : list LanguageModelChat)
           (modelName : option string) : option LanguageModelChat :=
  match modelName with
  | None => nth_error this_models 0
  | Some name =>
      match find (fun m => composite m =? name) this_models with
      | Some m => Some m
      | None =>
          match find (fun m => family m =? name) this_models with
          | Some m => Some m
          | None => nth_error this_models 0
          end
      end
  end.

(** Token estimate as the specification words it: the contents are
    concatenated, and the length is divided by four, rounded up. *)
Definition estimateTokens_spec (msgs : list ChatCompletionMessage) : Z :=
  Math_ceil_div (Z.of_nat (String.length (String.concat EmptyString (map content msgs)))) 4.

(** [k] is the ceiling of [n / 4]. *)
Definition ceil_quarter (n k : Z) : Prop := (4 * (k - 1) < n <= 4 * k)%Z.

(** [choices[0].message.content] of a buffered response. *)
Definition message_content (r : ChatCompletionResponse) : option string :=
  option_map (fun c => content (message c)) (nth_error (choices r) 0).

(** The [delta.content] fields present in a chunk sequence, in order. *)
Definition delta_contents (chunks : list ChatCompletionStreamResponse)
  : list string :=
  flat_map (fun c =>
              flat_map (fun ch => match delta_content (delta ch) with
                                  | Some s => [s]
                                  | None => []
                                  end)
                       (chunk_choices c))
           chunks.

(** A model matches a name when its composite identifier or its bare
    family label equals it. *)
Definition matches (name : string) (m : LanguageModelChat) : Prop :=
  composite m = name \/ family m = name.

(** The response [createChatCompletion] builds from the selected model
    and the accumulated content. *)
Definition completion_of (host : Host) (request : ChatCompletionRequest)
           (m : LanguageModelChat) (fullContent : string) : ChatCompletionResponse :=
  let prompt := estimateTokens (messages request) in
  let completion :=
    estimateTokens [ {| role := "assistant"; content := fullContent |} ] in
  {| resp_id := generateId host;
     resp_object := "chat.completion";
     resp_created := now_seconds host;
     resp_model := composite m;
     choices := [ {| index := 0;
                     message := {| role := "assistant"; content := fullContent |};
                     finish_reason := stop |} ];
     usage := {| prompt_tokens := prompt;
                 completion_tokens := completion;
                 total_tokens := (prompt + completion)%Z |} |}.

(** The chunk sequence of a stream that runs to its end. *)
Definition chunks_of (host : Host) (m : LanguageModelChat) (frags : list string)
  : list ChatCompletionStreamResponse :=
  (first_chunk (generateId host) (now_seconds host) m
     :: map (content_chunk (generateId host) (now_seconds host) m) frags
     ++ [final_chunk (generateId host) (now_seconds host) m])%list.

Definition after_call (w : World) (c : ProviderCall) : World :=
  {| models := models w; calls := (calls w ++ [c])%list |}.

(** The single choice of the three kinds of chunk. *)
Definition role_choice : StreamChoice :=
  {| chunk_index := 0;
     delta := {| delta_role := Some "assistant"; delta_content := None |};
     chunk_finish_reason := None |}.

Definition content_choice (fragment : string) : StreamChoice :=
  {| chunk_index := 0;
     delta := {| delta_role := None; delta_content := Some fragment |};
     chunk_finish_reason := None |}.

Definition final_choice : StreamChoice :=
  {| chunk_index := 0;
     delta := {| delta_role := None; delta_content := None |};
     chunk_finish_reason := Some stop |}.

(** Whether [request.messages] is an array. *)
Definition has_messages_array (request : Json) : bool :=
  match request with
  | JsonNull => false
  | JsonValue r => Array_isArray (raw_messages r)
  end.

(* ------------------------------------------------------------------ *)
(** *** Sample capabilities and requests *)

Definition acme_fast : LanguageModelChat := {| vendor := "acme"; family := "fast" |}.

Definition x_a_b : LanguageModelChat := {| vendor := "x"; family := "a-b" |}.

Definition a_b : LanguageModelChat := {| vendor := "a"; family := "b" |}.

(** One model, answering every request with two fragments. *)
Definition acme : ModelProvider :=
  {| selectChatModels := fun _ => Ok [acme_fast];
     sendRequest := fun _ _ =>
       Ok {| fragments := ["Hi "; "there!"]; failure := None |} |}.

(** One model, rejecting every request for lack of quota. *)
Definition acme_blocked : ModelProvider :=
  {| selectChatModels := fun _ => Ok [acme_fast];
     sendRequest := fun _ _ =>
       Throw (LanguageModelError "Quota exceeded" "Blocked") |}.

(** No model at all: both discovery queries succeed with nothing. *)
Definition no_models : ModelProvider :=
  {| selectChatModels := fun _ => Ok [];
     sendRequest := fun _ _ => Throw (Error "unreachable") |}.

(** Discovery itself fails. *)
Definition broken_discovery : ModelProvider :=
  {| selectChatModels := fun _ => Throw (Error "lm unavailable");
     sendRequest := fun _ _ => Throw (Error "unreachable") |}.

Definition a_host : Host :=
  {| Date_now := 1700000000123;
     Math_random_toString36 := "0.k3j9x2m7q1zt8";
     Date_toISOString := "2023-11-14T22:13:20.123Z" |}.

Definition cold : World := {| models := []; calls := [] |}.

Definition hello : ChatCompletionMessage := {| role := "user"; content := "Hello!" |}.

Definition post_completions (r : RawRequest) : IncomingMessage :=
  {| method := "POST";
     pathname := "/v1/chat/completions";
     body := Ok (Ok (JsonValue r)) |}.

Definition get_models : IncomingMessage :=
  {| method := "GET"; pathname := "/v1/models"; body := Ok (Ok JsonNull) |}.

(* ================================================================== *)
(** ** http-server.ts: registerLLMServerCommands *)
(* ================================================================== *)

(** The number [parseInt] returns: [NaN] or an integer. *)
Inductive Num : Type :=
| NaN
| Int (z : Z).

Definition isNaN (n : Num) : bool :=
  match n with
  | NaN => true
  | Int _ => false
  end.

(** [n < k] and [n > k]: both false on [NaN]. *)
Definition num_lt (n : Num) (k : Z) : bool :=
  match n with
  | NaN => false
  | Int z => (z <? k)%Z
  end.

Definition num_gt (n : Num) (k : Z) : bool :=
  match n with
  | NaN => false
  | Int z => (z >? k)%Z
  end.

(** What the commands show through [vscode.window].  [InformationStarted]
    is the message [`LLM API Server started on http://localhost:${port}`]
    offered with the item 'Open in Browser'. *)
Inductive Notification : Type :=
| WarningMessage (text : string)
| InformationStarted (port : Num)
| InformationMessage (text : string)
| ErrorMessage (text : string).

(** The closure of [registerLLMServerCommands]: the variable [server]
    (a [VSCodeLLMServer], known by the port it was built with, or [null])
    and the notifications shown so far. *)
Record Commands : Type := {
  server : option Num;
  notifications : list Notification
}.

Definition set_server (v : option Num) : M Commands unit :=
  modify (fun st => {| server := v; notifications := notifications st |}).

Definition show (n : Notification) : M Commands unit :=
  modify (fun st => {| server := server st;
                       notifications := (notifications st ++ [n])%list |}).

(** The outcome of an awaited call on the host, as a computation. *)
Definition await {S A} (outcome : JsResult A) : M S A :=
  fun s => (outcome, s).

Section ServerCommands.

(** [parseInt(value)], of the JavaScript library. *)
Variable parseInt : string -> Num.

(** The [validateInput] callback of the input box: [null] accepts. *)
Definition validateInput (value : string) : option string :=
  let port := parseInt value in
  if isNaN port || num_lt port 1 || num_gt port 65535
  then Some "Please enter a valid port number (1-65535)"
  else None.

(** The command chatSample.startLLMServer.  [portInput] is what the
    input box resolves to ([None] when dismissed) and [started] the
    outcome of [server.start()]. *)
Definition startCommand (portInput : JsResult (option string))
           (started : JsResult unit) : M Commands unit :=
  fun st =>
    match server st with
    | Some _ => show (WarningMessage "LLM Server is already running") st
    | None =>
        try_catch
          (input <- await portInput ;;
           match input with
           | None => ret tt
           | Some entered =>
               if falsy input then ret tt
               else
                 let port := parseInt entered in
                 set_server (Some port) ;;
                 await started ;;
                 show (InformationStarted port)
           end)
          (fun error =>
             show (ErrorMessage ("Failed to start LLM server: "
                                   ++ message_or error "Unknown error")) ;;
             set_server None)
          st
    end.

(** The command chatSample.stopLLMServer.  [stopped] is the outcome of
    [server.stop()]. *)
Definition stopCommand (stopped : JsResult unit) : M Commands unit :=
  fun st =>
    match server st with
    | None => show (WarningMessage "LLM Server is not running") st
    | Some _ =>
        try_catch
          (await stopped ;;
           set_server None ;;
           show (InformationMessage "LLM API Server stopped"))
          (fun error =>
             show (ErrorMessage ("Failed to stop LLM server: "
                                   ++ message_or error "Unknown error")))
          st
    end.

End ServerCommands.

(* ------------------------------------------------------------------ *)
(** *** Shorthands of the statements on the remaining code *)

(** The three headers [handleRequest] sets before anything else. *)
Definition cors_headers : list (string * string) :=
  [("Access-Control-Allow-Origin", "*");
   ("Access-Control-Allow-Methods", "GET, POST, OPTIONS");
   ("Access-Control-Allow-Headers", "Content-Type, Authorization")].

(** A response on which only these headers have been set. *)
Definition cors_response : ServerResponse :=
  {| headers := cors_headers; head := None; written := []; ended := false |}.

(** A response with these headers, completed by [writeHead] and a
    last [end]. *)
Definition completed (statusCode : Z) (hs : list (string * string))
           (data : list Payload) : ServerResponse :=
  {| headers := cors_headers;
     head := Some (statusCode, hs);
     written := data;
     ended := true |}.

Definition json_type : list (string * string) :=
  [("Content-Type", "application/json")].

Definition event_stream_type : list (string * string) :=
  [("Content-Type", "text/event-stream");
   ("Cache-Control", "no-cache");
   ("Connection", "keep-alive")].

(** The error the [catch] clause of the completion paths throws for the
    error it caught. *)
Definition translated (e : JsError) : JsError :=
  match e with
  | LanguageModelError message code =>
      Error ("Language Model Error: " ++ message ++ " (" ++ code ++ ")")
  | _ => e
  end.

(** The error [initialize] throws, whatever went wrong. *)
Definition no_models_error : JsError :=
  Error "No language models available. Please ensure GitHub Copilot or other LLM extensions are installed.".

(** The sum of the lengths of the strings of a list. *)
Definition total_length (l : list string) : nat :=
  fold_right (fun s n => (String.length s + n)%nat) 0%nat l.

(** A computation of a handler that leaves the headers set on [res]
    as they are; the same for a computation on [res] alone. *)
Definition keeps_headers {A} (c : M GwState A) : Prop :=
  forall st, headers (snd (snd (c st))) = headers (snd st).

Definition keeps_headers_res {A} (c : M ServerResponse A) : Prop :=
  forall res, headers (snd (c res)) = headers res.

(** A stand-in for [parseInt] that knows one input. *)
Definition parseInt_3000 (value : string) : Num :=
  if value =? "3000" then Int 3000 else NaN.

(** No server, nothing shown yet. *)
Definition idle : Commands := {| server := None; notifications := [] |}.

(** One model whose answer breaks off after two fragments. *)
Definition acme_interrupted : ModelProvider :=
  {| selectChatModels := fun _ => Ok [acme_fast];
     sendRequest := fun _ _ =>
       Ok {| fragments := ["Hi "; "there!"];
             failure := Some (LanguageModelError "Stream reset" "Unknown") |} |}.

(** Nothing for the default vendor, one model of another vendor. *)
Definition other_vendor : ModelProvider :=
  {| selectChatModels := fun v => match v with
                                  | Some _ => Ok []
                                  | None => Ok [x_a_b]
                                  end;
     sendRequest := fun _ _ =>
       Ok {| fragments := ["ok"]; failure := None |} |}.

(** Nothing for the default vendor, and the second query fails. *)
Definition fallback_fails : ModelProvider :=
  {| selectChatModels := fun v => match v with
                                  | Some _ => Ok []
                                  | None => Throw (Error "lm unavailable")
                                  end;
     sendRequest := fun _ _ => Throw (Error "unreachable") |}.

(* ================================================================== *)
(** ** Basic facts *)
(* ================================================================== *)

Lemma Math_ceil_div_quarter (n : Z) : ceil_quarter n (Math_ceil_div n 4).
Proof.
  unfold ceil_quarter, Math_ceil_div.
  pose proof (Z.div_mod (- n) 4 ltac:(lia)) as E.
  pose proof (Z.mod_pos_bound (- n) 4 ltac:(lia)) as B.
  lia.
Qed.

Lemma ceil_quarter_unique (n k k' : Z) :
  ceil_quarter n k -> ceil_quarter n k' -> k = k'.
Proof. unfold ceil_quarter. lia. Qed.

Lemma append_empty_r (s : string) : s ++ EmptyString = s.
Proof. induction s as [|c s IH]; cbn; [reflexivity|now rewrite IH]. Qed.

Lemma append_assoc (a b c : string) : (a ++ b) ++ c = a ++ (b ++ c).
Proof. induction a as [|x a IH]; cbn; [reflexivity|now rewrite IH]. Qed.

Lemma concat_empty_cons (x : string) (l : list string) :
  String.concat EmptyString (x :: l) = x ++ String.concat EmptyString l.
Proof.
  destruct l as [|y l]; cbn; [now rewrite append_empty_r|reflexivity].
Qed.

Lemma fold_left_append (l : list string) (acc : string) :
  fold_left (fun a fragment => a ++ fragment) l acc
  = acc ++ String.concat EmptyString l.
Proof.
  revert acc. induction l as [|x l IH]; intros acc.
  - cbn. now rewrite append_empty_r.
  - cbn [fold_left]. now rewrite IH, concat_empty_cons, append_assoc.
Qed.

Lemma for_of_yield {A} (g : A -> ChatCompletionStreamResponse) (xs : list A)
      (w : World) (acc : list ChatCompletionStreamResponse) :
  for_of xs (fun x => yield (g x)) (w, acc) = (Ok tt, (w, (acc ++ map g xs)%list)).
Proof.
  revert acc. induction xs as [|x xs IH]; intros acc; simpl.
  - unfold ret. now rewrite app_nil_r.
  - unfold bind, yield, modify. simpl. rewrite IH.
    now rewrite <- app_assoc.
Qed.

Lemma delta_contents_app (xs ys : list ChatCompletionStreamResponse) :
  delta_contents (xs ++ ys) = (delta_contents xs ++ delta_contents ys)%list.
Proof. unfold delta_contents. apply flat_map_app. Qed.

Lemma delta_contents_content_chunks id created m (frags : list string) :
  delta_contents (map (content_chunk id created m) frags) = frags.
Proof.
  induction frags as [|f frags IH]; [reflexivity|].
  change (delta_contents (map (content_chunk id created m) (f :: frags)))
    with (f :: delta_contents (map (content_chunk id created m) frags)).
  now rewrite IH.
Qed.

(* ================================================================== *)
(** ** Runs of the two completion paths *)
(* ================================================================== *)

Section Runs.

Variable lm : ModelProvider.
Variable host : Host.
Variable request : ChatCompletionRequest.
Variables w w1 : World.
Variable m : LanguageModelChat.
Variable frags : list string.

Hypothesis Hinit : ensure_initialized lm w = (Ok tt, w1).
Hypothesis Hsel : selectModel (models w1) (model request) = Some m.
Hypothesis Hsend :
  sendRequest lm m (convertMessages (messages request))
  = Ok {| fragments := frags; failure := None |}.

Lemma createChatCompletion_run :
  createChatCompletion lm host request w
  = (Ok (completion_of host request m (String.concat EmptyString frags)),
     after_call w1 (CallSendRequest m (convertMessages (messages request))
                                    "OpenAI-like API request")).
Proof.
  unfold createChatCompletion, bind at 1. rewrite Hinit.
  unfold bind at 1, this_models at 1. rewrite Hsel.
  unfold try_catch, bind at 1, model_sendRequest, bind at 1.
  unfold record_call, modify. rewrite Hsend.
  unfold bind, accumulate. cbn [fragments failure].
  rewrite fold_left_append. reflexivity.
Qed.

Lemma createChatCompletionStream_run :
  createChatCompletionStream lm host request (w, [])
  = (Ok tt,
     (after_call w1 (CallSendRequest m (convertMessages (messages request))
                                     "OpenAI-like API streaming request"),
      chunks_of host m frags)).
Proof.
  unfold createChatCompletionStream, bind at 1, zoom at 1.
  cbn [fst snd]. rewrite Hinit.
  unfold bind at 1, zoom at 1, this_models at 1. cbn [fst snd].
  rewrite Hsel.
  unfold try_catch, bind at 1, zoom, model_sendRequest, bind at 1.
  unfold record_call, modify. cbn [fst snd]. rewrite Hsend.
  unfold bind at 1, yield at 1, modify. cbn [fst snd fragments failure].
  unfold bind at 1. rewrite for_of_yield.
  unfold yield, modify. cbn [fst snd app].
  reflexivity.
Qed.

End Runs.

(** What a successful buffered completion looks like. *)
Lemma createChatCompletion_inv lm host request w resp w' :
  createChatCompletion lm host request w = (Ok resp, w') ->
  exists m fullContent, resp = completion_of host request m fullContent.
Proof.
  unfold createChatCompletion, bind at 1.
  destruct (ensure_initialized lm w) as [[[]|e] w1]; [|discriminate].
  unfold bind at 1, this_models at 1.
  destruct (selectModel (models w1) (model request)) as [m|].
  - unfold try_catch, bind at 1, model_sendRequest, bind at 1.
    unfold record_call, modify.
    destruct (sendRequest lm m (convertMessages (messages request)))
      as [[fr [e|]]|e].
    + unfold bind, accumulate, throw, rethrow. cbn [failure].
      destruct e; intros H; discriminate H.
    + unfold bind, accumulate, ret. cbn [fragments failure]. cbv beta iota.
      intros H. injection H as <- _. do 2 eexists. reflexivity.
    + unfold rethrow, throw. destruct e; intros H; discriminate H.
  - unfold try_catch, throw, undefined_sendRequest, rethrow.
    intros H; discriminate H.
Qed.

(** Discovery that finds nothing leaves the cache empty and succeeds. *)
Lemma initialize_nothing_found lm w :
  selectChatModels lm (Some "copilot") = Ok [] ->
  selectChatModels lm None = Ok [] ->
  initialize lm w
  = (Ok tt, {| models := [];
               calls := (calls w ++ [CallSelectChatModels (Some "copilot")])
                          ++ [CallSelectChatModels None] |}%list).
Proof.
  intros H1 H2.
  unfold initialize, try_catch, bind, lm_selectChatModels, bind, record_call,
    set_models, this_models, modify, ret.
  rewrite H1. cbn. rewrite H2. reflexivity.
Qed.

(* ================================================================== *)
(** ** Message conversion *)
(* ================================================================== *)

(** C9. The conversion keeps the length of the sequence, and the message
    at every position becomes the turn at the same position: a user turn
    with the same content when its role is system or user, an assistant
    turn with the same content when its role is assistant. *)
Theorem convertMessages_turns (msgs : list ChatCompletionMessage)
        (i : nat) (msg : ChatCompletionMessage) :
  nth_error msgs i = Some msg ->
  List.length (convertMessages msgs) = List.length msgs /\
  (role msg = "system" \/ role msg = "user" ->
   nth_error (convertMessages msgs) i = Some (User (content msg))) /\
  (role msg = "assistant" ->
   nth_error (convertMessages msgs) i = Some (Assistant (content msg))).
Proof.
  intros Hi. unfold convertMessages. split; [apply length_map|].
  rewrite nth_error_map, Hi. cbn [option_map]. unfold convertMessage.
  split.
  - intros [-> | ->]; reflexivity.
  - intros ->. reflexivity.
Qed.

Lemma convertMessages_turns_witness :
  nth_error (convertMessages
               [ {| role := "system"; content := "Be brief." |};
                 {| role := "assistant"; content := "Hi." |};
                 {| role := "user"; content := "Hello!" |} ]) 1
  = Some (Assistant "Hi.").
Proof.
  apply (convertMessages_turns
           [ {| role := "system"; content := "Be brief." |};
             {| role := "assistant"; content := "Hi." |};
             {| role := "user"; content := "Hello!" |} ]
           1 {| role := "assistant"; content := "Hi." |}).
  - reflexivity.
  - reflexivity.
Defined.

(* ================================================================== *)
(** ** Streaming *)
(* ================================================================== *)

Lemma chunks_of_length host m frags :
  List.length (chunks_of host m frags) = S (S (List.length frags)).
Proof.
  unfold chunks_of. cbn [List.length].
  rewrite length_app, length_map. cbn [List.length]. lia.
Qed.

Lemma chunks_of_content host m frags i frag :
  nth_error frags i = Some frag ->
  nth_error (chunks_of host m frags) (S i)
  = Some (content_chunk (generateId host) (now_seconds host) m frag).
Proof.
  intros Hi. unfold chunks_of. cbn [nth_error].
  rewrite nth_error_app1.
  - now rewrite nth_error_map, Hi.
  - rewrite length_map. apply nth_error_Some. congruence.
Qed.

Lemma chunks_of_last host m frags :
  nth_error (chunks_of host m frags) (S (List.length frags))
  = Some (final_chunk (generateId host) (now_seconds host) m).
Proof.
  unfold chunks_of. cbn [nth_error].
  rewrite nth_error_app2; rewrite length_map; [|lia].
  now rewrite Nat.sub_diag.
Qed.

Lemma chunks_of_shared host m frags c :
  In c (chunks_of host m frags) ->
  chunk_id c = generateId host /\ chunk_created c = now_seconds host.
Proof.
  unfold chunks_of. intros [<- | H]; [split; reflexivity|].
  apply in_app_or in H. destruct H as [H | [<- | []]].
  - apply in_map_iff in H. destruct H as (f & <- & _). split; reflexivity.
  - split; reflexivity.
Qed.

Lemma delta_contents_chunks_of host m frags :
  delta_contents (chunks_of host m frags) = frags.
Proof.
  unfold chunks_of.
  change (first_chunk (generateId host) (now_seconds host) m
            :: map (content_chunk (generateId host) (now_seconds host) m) frags
            ++ [final_chunk (generateId host) (now_seconds host) m])%list
    with ([first_chunk (generateId host) (now_seconds host) m]
            ++ map (content_chunk (generateId host) (now_seconds host) m) frags
            ++ [final_chunk (generateId host) (now_seconds host) m])%list.
  rewrite !delta_contents_app, delta_contents_content_chunks.
  cbn. apply app_nil_r.
Qed.

(** C8. When the selected model answers the converted messages with the
    fragments [frags] and ends normally, the generator runs to its end
    and yields [2 + length frags] chunks: a first chunk whose delta
    carries the role assistant and no content, with finish_reason null;
    then at position [i + 1] a chunk whose delta carries the [i]-th
    fragment unchanged, with finish_reason null; then a last chunk with an
    empty delta and finish_reason stop.  All chunks carry one id and one
    created value. *)
Theorem stream_chunk_sequence lm host request w w1 m frags :
  ensure_initialized lm w = (Ok tt, w1) ->
  selectModel (models w1) (model request) = Some m ->
  sendRequest lm m (convertMessages (messages request))
  = Ok {| fragments := frags; failure := None |} ->
  exists w2 chunks id created,
    createChatCompletionStream lm host request (w, []) = (Ok tt, (w2, chunks)) /\
    List.length chunks = S (S (List.length frags)) /\
    (exists c, nth_error chunks 0 = Some c /\ chunk_choices c = [role_choice]) /\
    (forall i frag, nth_error frags i = Some frag ->
       exists c, nth_error chunks (S i) = Some c /\
                 chunk_choices c = [content_choice frag]) /\
    (exists c, nth_error chunks (S (List.length frags)) = Some c /\
               chunk_choices c = [final_choice]) /\
    (forall c, In c chunks -> chunk_id c = id /\ chunk_created c = created).
Proof.
  intros Hinit Hsel Hsend.
  eexists _, (chunks_of host m frags), (generateId host), (now_seconds host).
  split; [exact (createChatCompletionStream_run lm host request w w1 m frags
                   Hinit Hsel Hsend)|].
  split; [apply chunks_of_length|].
  split; [eexists; split; reflexivity|].
  split.
  - intros i frag Hi. eexists. split; [apply chunks_of_content, Hi|reflexivity].
  - split.
    + eexists. split; [apply chunks_of_last|reflexivity].
    + apply chunks_of_shared.
Qed.

Lemma stream_chunk_sequence_witness :
  exists w2 chunks id created,
    createChatCompletionStream acme a_host
      {| model := None; messages := [hello]; stream := true |} (cold, [])
    = (Ok tt, (w2, chunks)) /\
    List.length chunks = 4%nat /\
    (exists c, nth_error chunks 0 = Some c /\ chunk_choices c = [role_choice]) /\
    (forall i frag, nth_error ["Hi "; "there!"] i = Some frag ->
       exists c, nth_error chunks (S i) = Some c /\
                 chunk_choices c = [content_choice frag]) /\
    (exists c, nth_error chunks 3 = Some c /\ chunk_choices c = [final_choice]) /\
    (forall c, In c chunks -> chunk_id c = id /\ chunk_created c = created).
Proof.
  apply (stream_chunk_sequence acme a_host
           {| model := None; messages := [hello]; stream := true |}
           cold
           {| models := [acme_fast];
              calls := [CallSelectChatModels (Some "copilot")] |}
           acme_fast ["Hi "; "there!"]).
  - reflexivity.
  - reflexivity.
  - reflexivity.
Defined.

(* ================================================================== *)
(** ** Buffered against streamed *)
(* ================================================================== *)

(** C7. When the selected model answers the converted messages with the
    fragments [frags] and ends normally, both paths succeed from the same
    state, and the content of the buffered response's first choice is the
    concatenation, in order, of the delta contents of the streamed
    chunks. *)
Theorem buffered_content_is_streamed_content lm host request w w1 m frags :
  ensure_initialized lm w = (Ok tt, w1) ->
  selectModel (models w1) (model request) = Some m ->
  sendRequest lm m (convertMessages (messages request))
  = Ok {| fragments := frags; failure := None |} ->
  exists resp wb chunks ws,
    createChatCompletion lm host request w = (Ok resp, wb) /\
    createChatCompletionStream lm host request (w, []) = (Ok tt, (ws, chunks)) /\
    delta_contents chunks = frags /\
    message_content resp = Some (String.concat EmptyString (delta_contents chunks)).
Proof.
  intros Hinit Hsel Hsend.
  eexists _, _, _, _.
  split; [exact (createChatCompletion_run lm host request w w1 m frags
                   Hinit Hsel Hsend)|].
  split; [exact (createChatCompletionStream_run lm host request w w1 m frags
                   Hinit Hsel Hsend)|].
  rewrite delta_contents_chunks_of. split; reflexivity.
Qed.

Lemma buffered_content_is_streamed_content_witness :
  exists resp wb chunks ws,
    createChatCompletion acme a_host
      {| model := None; messages := [hello]; stream := false |} cold
    = (Ok resp, wb) /\
    createChatCompletionStream acme a_host
      {| model := None; messages := [hello]; stream := false |} (cold, [])
    = (Ok tt, (ws, chunks)) /\
    delta_contents chunks = ["Hi "; "there!"] /\
    message_content resp = Some (String.concat EmptyString (delta_contents chunks)).
Proof.
  apply (buffered_content_is_streamed_content acme a_host
           {| model := None; messages := [hello]; stream := false |}
           cold
           {| models := [acme_fast];
              calls := [CallSelectChatModels (Some "copilot")] |}
           acme_fast ["Hi "; "there!"]).
  - reflexivity.
  - reflexivity.
  - reflexivity.
Defined.

(* ================================================================== *)
(** ** Usage accounting *)
(* ================================================================== *)

(** C5, as the code has it.  In every buffered response the prompt count
    is the ceiling of a quarter of the length of the request's message
    contents joined by single spaces, the completion count is the ceiling
    of a quarter of the length of the generated content, and the total is
    their sum. *)
Theorem usage_estimates lm host request w resp w' :
  createChatCompletion lm host request w = (Ok resp, w') ->
  exists generated,
    message_content resp = Some generated /\
    ceil_quarter
      (Z.of_nat (String.length (join " " (map content (messages request)))))
      (prompt_tokens (usage resp)) /\
    ceil_quarter (Z.of_nat (String.length generated))
                 (completion_tokens (usage resp)) /\
    total_tokens (usage resp)
    = (prompt_tokens (usage resp) + completion_tokens (usage resp))%Z.
Proof.
  intros H. apply createChatCompletion_inv in H.
  destruct H as (m & fullContent & ->).
  exists fullContent. unfold completion_of, message_content.
  cbn [choices nth_error option_map message content usage
       prompt_tokens completion_tokens total_tokens].
  repeat split; try apply Math_ceil_div_quarter.
Qed.

Lemma usage_estimates_witness :
  exists generated,
    message_content
      (completion_of a_host
         {| model := None; messages := [hello]; stream := false |}
         acme_fast "Hi there!") = Some generated /\
    ceil_quarter 6 2 /\
    ceil_quarter (Z.of_nat (String.length generated)) 3 /\
    5%Z = (2 + 3)%Z.
Proof.
  apply (usage_estimates acme a_host
           {| model := None; messages := [hello]; stream := false |}
           cold
           (completion_of a_host
              {| model := None; messages := [hello]; stream := false |}
              acme_fast "Hi there!")
           {| models := [acme_fast];
              calls := [CallSelectChatModels (Some "copilot");
                        CallSendRequest acme_fast [User "Hello!"]
                                        "OpenAI-like API request"] |}).
  reflexivity.
Defined.

(** C5, as stated, fails on two messages: the contents "abcd" and "efgh"
    are joined into nine characters, so the prompt count is 3, where the
    concatenation has eight characters and a quarter of it is 2. *)
Lemma prompt_tokens_count_the_separators :
  exists resp w',
    createChatCompletion acme a_host
      {| model := None;
         messages := [ {| role := "system"; content := "abcd" |};
                       {| role := "user"; content := "efgh" |} ];
         stream := false |} cold = (Ok resp, w') /\
    prompt_tokens (usage resp) = 3%Z /\
    estimateTokens_spec [ {| role := "system"; content := "abcd" |};
                          {| role := "user"; content := "efgh" |} ] = 2%Z /\
    prompt_tokens (usage resp)
    <> estimateTokens_spec [ {| role := "system"; content := "abcd" |};
                             {| role := "user"; content := "efgh" |} ].
Proof.
  eexists _, _. split; [lazy; reflexivity|].
  split; [reflexivity|]. split; [reflexivity|]. discriminate.
Qed.

(* ================================================================== *)
(** ** Model selection *)
(* ================================================================== *)

Lemma find_first_match {A} (p : A -> bool) (l : list A) (x : A) :
  find p l = Some x ->
  exists pre post, l = (pre ++ x :: post)%list /\ p x = true /\
                   forall y, In y pre -> p y = false.
Proof.
  induction l as [|a l IH]; [discriminate|].
  cbn [find]. destruct (p a) eqn:Ha.
  - intros [= <-]. exists [], l. repeat split; [assumption|intros y []].
  - intros H. destruct (IH H) as (pre & post & -> & Hx & Hpre).
    exists (a :: pre), post. repeat split; [assumption|].
    intros y [<- | Hy]; [assumption|now apply Hpre].
Qed.

Lemma matches_test (name : string) (m : LanguageModelChat) :
  ((composite m =? name) || (family m =? name)) = true <-> matches name m.
Proof.
  unfold matches. rewrite orb_true_iff, !String.eqb_eq. reflexivity.
Qed.

Lemma matches_test_false (name : string) (m : LanguageModelChat) :
  ((composite m =? name) || (family m =? name)) = false <-> ~ matches name m.
Proof.
  rewrite <- matches_test. destruct (_ || _); split; congruence.
Qed.

(** C4, as the code has it.  On a non-empty cache [selectModel] always
    returns a model.  With the name absent or empty it is the first
    cached model.  With a non-empty name it is the first model, in cache
    order, whose composite identifier or whose bare family label equals
    the name; when no model matches in either way it is the first cached
    model. *)
Theorem selectModel_first_match (ms : list LanguageModelChat)
        (modelName : option string) :
  ms <> [] ->
  exists m,
    selectModel ms modelName = Some m /\
    (falsy modelName = true -> nth_error ms 0 = Some m) /\
    (forall name, modelName = Some name -> name <> EmptyString ->
       (exists pre post, ms = (pre ++ m :: post)%list /\ matches name m /\
                         forall x, In x pre -> ~ matches name x)
       \/ ((forall x, In x ms -> ~ matches name x) /\ nth_error ms 0 = Some m)).
Proof.
  intros Hne. destruct ms as [|m0 rest]; [contradiction|].
  destruct modelName as [name|].
  - unfold selectModel. cbn [falsy].
    destruct (name =? EmptyString) eqn:Hempty.
    + exists m0. split; [reflexivity|]. split; [reflexivity|].
      intros name' [= <-] Hname. apply String.eqb_eq in Hempty. contradiction.
    + destruct (find _ (m0 :: rest)) as [m|] eqn:Hfind.
      * exists m. split; [reflexivity|]. split; [discriminate|].
        intros name' [= <-] _. left.
        destruct (find_first_match _ _ _ Hfind) as (pre & post & E & Hm & Hpre).
        exists pre, post. split; [exact E|]. split; [now apply matches_test|].
        intros x Hx. apply matches_test_false. now apply Hpre.
      * exists m0. split; [reflexivity|]. split; [discriminate|].
        intros name' [= <-] _. right. split; [|reflexivity].
        intros x Hx. apply matches_test_false.
        exact (find_none _ _ Hfind x Hx).
  - exists m0. split; [reflexivity|]. split; [reflexivity|]. discriminate.
Qed.

Lemma selectModel_first_match_witness :
  exists m,
    selectModel [x_a_b; a_b] (Some "b") = Some m /\
    (falsy (Some "b") = true -> nth_error [x_a_b; a_b] 0 = Some m) /\
    (forall name, Some "b" = Some name -> name <> EmptyString ->
       (exists pre post, [x_a_b; a_b] = (pre ++ m :: post)%list /\
                         matches name m /\
                         forall x, In x pre -> ~ matches name x)
       \/ ((forall x, In x [x_a_b; a_b] -> ~ matches name x) /\
           nth_error [x_a_b; a_b] 0 = Some m)).
Proof.
  apply (selectModel_first_match [x_a_b; a_b] (Some "b")).
  discriminate.
Defined.

(** C4, as stated, fails when a model matched by its family label comes
    before the model matched by its composite identifier: for the name
    "a-b" the code returns the model of vendor x and family a-b, where
    the stated order of preference asks for the model of vendor a and
    family b. *)
Lemma selectModel_family_before_composite :
  selectModel [x_a_b; a_b] (Some "a-b") = Some x_a_b /\
  selectModel_spec [x_a_b; a_b] (Some "a-b") = Some a_b /\
  selectModel [x_a_b; a_b] (Some "a-b")
  <> selectModel_spec [x_a_b; a_b] (Some "a-b").
Proof.
  split; [reflexivity|]. split; [reflexivity|]. discriminate.
Qed.

(* ================================================================== *)
(** ** Request validation *)
(* ================================================================== *)

(** C3, as the code has it.  A POST to /v1/chat/completions whose parsed
    body has no messages field, or one that is not an array, is answered
    with status 400 and an envelope of type bad_request; the API object
    is left as it was and no call reaches the provider capability. *)
Theorem non_array_messages_rejected lm host req request w :
  method req = "POST" ->
  pathname req = "/v1/chat/completions" ->
  body req = Ok (Ok request) ->
  has_messages_array request = false ->
  exists res message,
    serve lm host req w = (Ok tt, (w, res)) /\
    statusCode res = Some 400%Z /\
    written res = [ErrorEnvelope "bad_request" message] /\
    ended res = true.
Proof.
  destruct req as [meth path b]. cbn [method pathname body].
  intros -> -> -> Harr.
  unfold serve, handleRequest, handleChatCompletions.
  unfold bind, zoom_snd, try_catch, setHeader, modify, readRequestBody,
    JSON_parse, request_messages, ret.
  cbn [method pathname body fst snd String.eqb Ascii.eqb Bool.eqb andb].
  destruct request as [|r]; cbn [has_messages_array] in Harr.
  - eexists _, _. split; [reflexivity|]. repeat split.
  - rewrite Harr. cbn [negb]. rewrite orb_true_r.
    eexists _, _. split; [reflexivity|]. repeat split.
Qed.

Lemma non_array_messages_rejected_witness :
  exists res message,
    serve acme a_host
      (post_completions {| raw_model := Some "acme-fast";
                           raw_messages := undefined;
                           raw_stream := false |}) cold
    = (Ok tt, (cold, res)) /\
    statusCode res = Some 400%Z /\
    written res = [ErrorEnvelope "bad_request" message] /\
    ended res = true.
Proof.
  apply (non_array_messages_rejected acme a_host
           (post_completions {| raw_model := Some "acme-fast";
                                raw_messages := undefined;
                                raw_stream := false |})
           (JsonValue {| raw_model := Some "acme-fast";
                         raw_messages := undefined;
                         raw_stream := false |})
           cold).
  - reflexivity.
  - reflexivity.
  - reflexivity.
  - reflexivity.
Defined.

(** The message of the rejection when the parsed body is not [null]. *)
Lemma non_array_messages_message lm host r w :
  Array_isArray (raw_messages r) = false ->
  exists res,
    serve lm host (post_completions r) w = (Ok tt, (w, res)) /\
    written res = [ErrorEnvelope "bad_request"
                     "messages field is required and must be an array"].
Proof.
  intros Harr.
  unfold serve, handleRequest, handleChatCompletions, post_completions.
  unfold bind, zoom_snd, try_catch, setHeader, modify, readRequestBody,
    JSON_parse, request_messages, ret.
  cbn [method pathname body fst snd String.eqb Ascii.eqb Bool.eqb andb].
  rewrite Harr. cbn [negb]. rewrite orb_true_r.
  eexists. split; reflexivity.
Qed.

(** C3, as stated, fails on the empty list: the body with an empty
    messages array passes validation, discovery and the model call take
    place, and the answer is the completion with status 200. *)
Lemma empty_messages_reach_the_provider :
  exists w' res,
    serve acme a_host
      (post_completions {| raw_model := None;
                           raw_messages := array [];
                           raw_stream := false |}) cold
    = (Ok tt, (w', res)) /\
    statusCode res = Some 200%Z /\
    calls w' = [CallSelectChatModels (Some "copilot");
                CallSendRequest acme_fast [] "OpenAI-like API request"] /\
    statusCode res <> Some 400%Z.
Proof.
  eexists _, _. split; [lazy; reflexivity|].
  split; [reflexivity|]. split; [reflexivity|]. discriminate.
Qed.

(* ================================================================== *)
(** ** Failures *)
(* ================================================================== *)

(** The wrapper hands back a generator exactly for streaming requests. *)
Lemma api_handleChatCompletions_kind lm host request w r w' :
  api_handleChatCompletions lm host request w = (Ok r, w') ->
  match r with
  | inr generator =>
      stream request = true /\ generator = createChatCompletionStream lm host request
  | inl _ => stream request = false
  end.
Proof.
  unfold api_handleChatCompletions, bind at 1.
  destruct (initialize lm w) as [[[]|e] w1]; [|intros H; discriminate H].
  destruct (stream request).
  - unfold ret. intros [= <- _]. split; reflexivity.
  - unfold bind.
    destruct (createChatCompletion lm host request w1) as [[c|e] w2];
      [|intros H; discriminate H].
    unfold ret. intros [= <- _]. reflexivity.
Qed.

(** The same provider failure on a streaming request: the head of the
    event stream is already written when the generator throws, so neither
    catch clause can write an error head; the handler itself fails and
    the response stays open with status 200 and no data. *)
Lemma provider_failure_while_streaming :
  exists w' res,
    serve acme_blocked a_host
      (post_completions {| raw_model := None;
                           raw_messages := array [hello];
                           raw_stream := true |}) cold
    = (Throw (Error "Cannot write headers after they are sent to the client"),
       (w', res)) /\
    statusCode res = Some 200%Z /\
    written res = [] /\
    ended res = false.
Proof.
  eexists _, _. split; [lazy; reflexivity|]. repeat split.
Qed.

(** C1, at a failing input.  The provider rejects the request with a
    quota error.  The translator re-raises it with the provider's message
    and code; the route handler answers it from its own catch clause,
    with status 400 and type bad_request. *)
Theorem provider_failure_answered_400 :
  (exists w',
     createChatCompletion acme_blocked a_host
       {| model := None; messages := [hello]; stream := false |} cold
     = (Throw (Error "Language Model Error: Quota exceeded (Blocked)"), w')) /\
  (exists w' res,
     serve acme_blocked a_host
       (post_completions {| raw_model := None;
                            raw_messages := array [hello];
                            raw_stream := false |}) cold
     = (Ok tt, (w', res)) /\
     statusCode res = Some 400%Z /\
     written res = [ErrorEnvelope "bad_request"
                      "Language Model Error: Quota exceeded (Blocked)"]).
Proof.
  split.
  - eexists. lazy. reflexivity.
  - eexists _, _. split; [lazy; reflexivity|]. split; reflexivity.
Qed.

(** C2, at the failing inputs.  Whenever both discovery queries succeed
    and return no model, [initialize] completes normally and the cache is
    empty: no error is raised. *)
Theorem initialize_completes_with_no_model lm w :
  selectChatModels lm (Some "copilot") = Ok [] ->
  selectChatModels lm None = Ok [] ->
  exists w',
    initialize lm w = (Ok tt, w') /\
    models w' = [] /\
    calls w' = (calls w ++ [CallSelectChatModels (Some "copilot");
                            CallSelectChatModels None])%list.
Proof.
  intros H1 H2. eexists. split; [apply (initialize_nothing_found lm w H1 H2)|].
  split; [reflexivity|]. cbn [calls]. now rewrite <- app_assoc.
Qed.

Lemma initialize_completes_with_no_model_witness :
  exists w',
    initialize no_models cold = (Ok tt, w') /\
    models w' = [] /\
    calls w' = (calls cold ++ [CallSelectChatModels (Some "copilot");
                               CallSelectChatModels None])%list.
Proof.
  apply (initialize_completes_with_no_model no_models cold).
  - reflexivity.
  - reflexivity.
Defined.

(** The error type of the statuses 400 and 404. *)
Lemma sendError_type_400_404 (message : string) :
  (exists res, sendError 400 "Bad Request" message fresh_response = (Ok tt, res) /\
               written res = [ErrorEnvelope "bad_request" message]) /\
  (exists res, sendError 404 "Not Found" message fresh_response = (Ok tt, res) /\
               written res = [ErrorEnvelope "not_found" message]).
Proof. split; eexists; split; reflexivity. Qed.

(** C6, at a failing input.  For the phrase of status 500 only the first
    space becomes an underscore: the type is "internal_server error". A
    GET of /v1/models while discovery fails is answered that way. *)
Theorem internal_server_error_type :
  (forall message,
     exists res,
       sendError 500 "Internal Server Error" message fresh_response = (Ok tt, res) /\
       statusCode res = Some 500%Z /\
       written res = [ErrorEnvelope "internal_server error" message]) /\
  (exists w' res,
     serve broken_discovery a_host get_models cold = (Ok tt, (w', res)) /\
     statusCode res = Some 500%Z /\
     written res = [ErrorEnvelope "internal_server error"
                      "No language models available. Please ensure GitHub Copilot or other LLM extensions are installed."]).
Proof.
  split.
  - intros message. eexists. split; [reflexivity|]. split; reflexivity.
  - eexists _, _. split; [lazy; reflexivity|]. split; reflexivity.
Qed.

(* ================================================================== *)
(** ** The empty cache *)
(* ================================================================== *)

Lemma selectModel_nil (modelName : option string) :
  selectModel [] modelName = None.
Proof.
  destruct modelName as [name|]; [|reflexivity].
  unfold selectModel. now destruct (falsy (Some name)).
Qed.

(** C10.  On an empty cache [selectModel] returns no model whatever the
    name.  The state is reachable: when both discovery queries return no
    model, [initialize] completes normally with the cache empty.  From
    there [createChatCompletion] goes on to call [sendRequest] on the
    missing model: it throws the TypeError of that call, after the two
    discovery queries and without any request to the provider. *)
Theorem empty_cache_is_not_guarded lm host request w :
  models w = [] ->
  selectChatModels lm (Some "copilot") = Ok [] ->
  selectChatModels lm None = Ok [] ->
  (forall modelName, selectModel (models w) modelName = None) /\
  (exists w', initialize lm w = (Ok tt, w') /\ models w' = []) /\
  (exists w',
     createChatCompletion lm host request w = (Throw undefined_sendRequest, w') /\
     models w' = [] /\
     calls w' = (calls w ++ [CallSelectChatModels (Some "copilot");
                             CallSelectChatModels None])%list).
Proof.
  intros Hw H1 H2. split; [|split].
  - intros modelName. rewrite Hw. apply selectModel_nil.
  - eexists. split; [apply (initialize_nothing_found lm w H1 H2)|reflexivity].
  - eexists. split; [|split].
    + unfold createChatCompletion, bind at 1, ensure_initialized, bind at 1.
      unfold this_models at 1. rewrite Hw. cbn [List.length Nat.eqb].
      rewrite (initialize_nothing_found lm w H1 H2).
      unfold bind at 1, this_models at 1. cbn [models].
      rewrite selectModel_nil. reflexivity.
    + reflexivity.
    + cbn [calls]. now rewrite <- app_assoc.
Qed.

Lemma empty_cache_is_not_guarded_witness :
  (forall modelName, selectModel (models cold) modelName = None) /\
  (exists w', initialize no_models cold = (Ok tt, w') /\ models w' = []) /\
  (exists w',
     createChatCompletion no_models a_host
       {| model := Some "acme-fast"; messages := [hello]; stream := false |} cold
     = (Throw undefined_sendRequest, w') /\
     models w' = [] /\
     calls w' = (calls cold ++ [CallSelectChatModels (Some "copilot");
                                CallSelectChatModels None])%list).
Proof.
  apply (empty_cache_is_not_guarded no_models a_host
           {| model := Some "acme-fast"; messages := [hello]; stream := false |}
           cold).
  - reflexivity.
  - reflexivity.
  - reflexivity.
Defined.

(* ================================================================== *)
(** ** Discovery *)
(* ================================================================== *)

(** X1. When the query for the default vendor finds models, they become
    the cache and the second query is not made. *)
Theorem initialize_prefers_default_vendor lm w ms :
  selectChatModels lm (Some "copilot") = Ok ms ->
  ms <> [] ->
  initialize lm w
  = (Ok tt, {| models := ms;
               calls := (calls w ++ [CallSelectChatModels (Some "copilot")])%list |}).
Proof.
  intros H1 Hne.
  unfold initialize, try_catch, bind, lm_selectChatModels, bind, record_call,
    set_models, this_models, modify, ret.
  rewrite H1. cbn [models calls].
  destruct ms as [|m0 rest]; [contradiction|reflexivity].
Qed.

Lemma initialize_prefers_default_vendor_witness :
  initialize acme {| models := [x_a_b]; calls := [] |}
  = (Ok tt, {| models := [acme_fast];
               calls := [CallSelectChatModels (Some "copilot")] |}).
Proof.
  apply (initialize_prefers_default_vendor acme
           {| models := [x_a_b]; calls := [] |} [acme_fast]).
  - reflexivity.
  - discriminate.
Defined.

(** X2. When the default vendor has no model, the cache becomes whatever
    the unfiltered query returns, after exactly the two queries. *)
Theorem initialize_falls_back_to_any_vendor lm w ms :
  selectChatModels lm (Some "copilot") = Ok [] ->
  selectChatModels lm None = Ok ms ->
  initialize lm w
  = (Ok tt, {| models := ms;
               calls := (calls w ++ [CallSelectChatModels (Some "copilot");
                                     CallSelectChatModels None])%list |}).
Proof.
  intros H1 H2.
  unfold initialize, try_catch, bind, lm_selectChatModels, bind, record_call,
    set_models, this_models, modify, ret.
  rewrite H1. cbn. rewrite H2. now rewrite <- app_assoc.
Qed.

Lemma initialize_falls_back_to_any_vendor_witness :
  initialize other_vendor cold
  = (Ok tt, {| models := [x_a_b];
               calls := [CallSelectChatModels (Some "copilot");
                         CallSelectChatModels None] |}).
Proof.
  apply (initialize_falls_back_to_any_vendor other_vendor cold [x_a_b]).
  - reflexivity.
  - reflexivity.
Defined.

Lemma initialize_outcome lm w :
  fst (initialize lm w) = Ok tt \/ fst (initialize lm w) = Throw no_models_error.
Proof.
  unfold initialize, try_catch, bind, lm_selectChatModels, bind, record_call,
    set_models, this_models, modify, ret, throw.
  destruct (selectChatModels lm (Some "copilot")) as [ms|e]; cbn [fst snd].
  - destruct ms as [|m0 rest]; cbn.
    + destruct (selectChatModels lm None) as [ms'|e]; cbn; auto.
    + auto.
  - auto.
Qed.

(** X3. [initialize] either completes or throws one fixed error: the
    error of a failed discovery call never surfaces. *)
Theorem initialize_throws_one_error lm w :
  fst (initialize lm w) = Ok tt \/ fst (initialize lm w) = Throw no_models_error.
Proof.
  unfold initialize, try_catch, bind, lm_selectChatModels, bind, record_call,
    set_models, this_models, modify, ret, throw.
  destruct (selectChatModels lm (Some "copilot")) as [ms|e]; cbn [fst snd].
  - destruct ms as [|m0 rest]; cbn.
    + destruct (selectChatModels lm None) as [ms'|e]; cbn; auto.
    + auto.
  - auto.
Qed.

(** X4. When the default vendor has no model and the second query fails,
    [initialize] throws and the cache is left empty, whatever it held
    before. *)
Theorem failed_fallback_empties_cache lm w e :
  selectChatModels lm (Some "copilot") = Ok [] ->
  selectChatModels lm None = Throw e ->
  initialize lm w
  = (Throw no_models_error,
     {| models := [];
        calls := (calls w ++ [CallSelectChatModels (Some "copilot");
                              CallSelectChatModels None])%list |}).
Proof.
  intros H1 H2.
  unfold initialize, try_catch, bind, lm_selectChatModels, bind, record_call,
    set_models, this_models, modify, ret, throw.
  rewrite H1. cbn. rewrite H2. now rewrite <- app_assoc.
Qed.

Lemma failed_fallback_empties_cache_witness :
  initialize fallback_fails {| models := [acme_fast]; calls := [] |}
  = (Throw no_models_error,
     {| models := [];
        calls := [CallSelectChatModels (Some "copilot");
                  CallSelectChatModels None] |}).
Proof.
  apply (failed_fallback_empties_cache fallback_fails
           {| models := [acme_fast]; calls := [] |} (Error "lm unavailable")).
  - reflexivity.
  - reflexivity.
Defined.

(** X5. When the first query itself fails, the cache keeps what it held. *)
Theorem failed_discovery_keeps_cache lm w e :
  selectChatModels lm (Some "copilot") = Throw e ->
  initialize lm w
  = (Throw no_models_error,
     {| models := models w;
        calls := (calls w ++ [CallSelectChatModels (Some "copilot")])%list |}).
Proof.
  intros H1.
  unfold initialize, try_catch, bind, lm_selectChatModels, bind, record_call,
    set_models, this_models, modify, ret, throw.
  now rewrite H1.
Qed.

Lemma failed_discovery_keeps_cache_witness :
  initialize broken_discovery {| models := [acme_fast]; calls := [] |}
  = (Throw no_models_error,
     {| models := [acme_fast];
        calls := [CallSelectChatModels (Some "copilot")] |}).
Proof.
  apply (failed_discovery_keeps_cache broken_discovery
           {| models := [acme_fast]; calls := [] |} (Error "lm unavailable")).
  reflexivity.
Defined.

(* ================================================================== *)
(** ** Selection, again *)
(* ================================================================== *)

Lemma find_In {A} (p : A -> bool) (l : list A) (x : A) :
  find p l = Some x -> In x l.
Proof. intros H. now apply find_some in H. Qed.

Lemma selectModel_member ms modelName m :
  selectModel ms modelName = Some m -> In m ms.
Proof.
  unfold selectModel. destruct modelName as [name|].
  - destruct (falsy (Some name)).
    + intros H. now apply nth_error_In in H.
    + destruct (find _ ms) as [m'|] eqn:Hfind.
      * intros [= <-]. now apply find_In in Hfind.
      * intros H. now apply nth_error_In in H.
  - intros H. now apply nth_error_In in H.
Qed.

(** X6. The model [selectModel] returns is always one of the cache,
    also when it is the fallback for a name that matches nothing. *)
Theorem selectModel_in_cache ms modelName m :
  selectModel ms modelName = Some m -> In m ms.
Proof.
  unfold selectModel. destruct modelName as [name|].
  - destruct (falsy (Some name)).
    + intros H. now apply nth_error_In in H.
    + destruct (find _ ms) as [m'|] eqn:Hfind.
      * intros [= <-]. now apply find_In in Hfind.
      * intros H. now apply nth_error_In in H.
  - intros H. now apply nth_error_In in H.
Qed.

Lemma selectModel_in_cache_witness : In a_b [x_a_b; a_b].
Proof.
  apply (selectModel_in_cache [x_a_b; a_b] (Some "b") a_b).
  reflexivity.
Defined.

Lemma composite_not_empty (m : LanguageModelChat) :
  (composite m =? EmptyString) = false.
Proof.
  apply String.eqb_neq. unfold composite.
  destruct (vendor m); discriminate.
Qed.

(** X7. Selecting by an identifier that [listModels] shows gives back the
    model it names, provided no cached model carries that identifier as
    its family label and no other cached model has the same identifier. *)
Theorem selectModel_by_listed_id ms m :
  In m ms ->
  (forall x, In x ms -> family x <> composite m) ->
  (forall x, In x ms -> composite x = composite m -> x = m) ->
  selectModel ms (Some (composite m)) = Some m.
Proof.
  intros Hin Hfam Huniq. unfold selectModel. cbn [falsy].
  rewrite composite_not_empty.
  destruct (find _ ms) as [m'|] eqn:Hfind.
  - destruct (find_some _ _ Hfind) as [Hin' Hm'].
    apply matches_test in Hm'. destruct Hm' as [Hc | Hf].
    + now rewrite (Huniq m' Hin' Hc).
    + now destruct (Hfam m' Hin').
  - pose proof (find_none _ _ Hfind m Hin) as Hm.
    apply matches_test_false in Hm. destruct Hm. now left.
Qed.

Lemma selectModel_by_listed_id_witness :
  selectModel [acme_fast; a_b] (Some (composite a_b)) = Some a_b.
Proof.
  apply (selectModel_by_listed_id [acme_fast; a_b] a_b).
  - right. left. reflexivity.
  - intros x [<- | [<- | []]]; discriminate.
  - intros x [<- | [<- | []]]; [discriminate|reflexivity].
Defined.

(* ================================================================== *)
(** ** Estimates, turns and identifiers *)
(* ================================================================== *)

Lemma length_append (a b : string) :
  String.length (a ++ b) = (String.length a + String.length b)%nat.
Proof. induction a as [|c a IH]; cbn; [reflexivity|now rewrite IH]. Qed.

Lemma join_length (sep : string) (l : list string) :
  String.length (join sep l)
  = (total_length l + String.length sep * (List.length l - 1))%nat.
Proof.
  unfold join. induction l as [|x l IH]; [cbn; lia|].
  destruct l as [|y l].
  - cbn. lia.
  - change (String.concat sep (x :: y :: l))
      with (x ++ sep ++ String.concat sep (y :: l)).
    rewrite !length_append, IH. cbn [total_length fold_right List.length]. lia.
Qed.

(** X8. The estimate of a list of [n] messages is the ceiling of a
    quarter of the total length of their contents plus [n - 1], one
    character for each separator; it is 0 for no message at all. *)
Theorem estimateTokens_formula (msgs : list ChatCompletionMessage) :
  ceil_quarter (Z.of_nat (total_length (map content msgs)
                          + (List.length msgs - 1)))
               (estimateTokens msgs) /\
  estimateTokens [] = 0%Z.
Proof.
  split; [|reflexivity].
  unfold estimateTokens. rewrite join_length, length_map.
  cbn [String.length]. rewrite Nat.mul_1_l. apply Math_ceil_div_quarter.
Qed.

(** X9. A message of any role other than assistant, known or not,
    becomes a user turn; an assistant turn comes from an assistant
    message only, and carries its content. *)
Theorem convertMessages_default_turn (msgs : list ChatCompletionMessage)
        (i : nat) (msg : ChatCompletionMessage) :
  nth_error msgs i = Some msg ->
  (role msg <> "assistant" ->
   nth_error (convertMessages msgs) i = Some (User (content msg))) /\
  (forall c, nth_error (convertMessages msgs) i = Some (Assistant c) ->
             role msg = "assistant" /\ c = content msg).
Proof.
  intros Hi. unfold convertMessages. rewrite nth_error_map, Hi.
  cbn [option_map]. unfold convertMessage.
  destruct (role msg =? "system") eqn:Hs;
    [split; [reflexivity|intros c H; discriminate H]|].
  destruct (role msg =? "user") eqn:Hu;
    [split; [reflexivity|intros c H; discriminate H]|].
  destruct (role msg =? "assistant") eqn:Ha.
  - apply String.eqb_eq in Ha. split; [contradiction|].
    intros c [= <-]. split; [assumption|reflexivity].
  - split; [reflexivity|intros c H; discriminate H].
Qed.

Lemma convertMessages_default_turn_witness :
  ("tool" <> "assistant" ->
   nth_error (convertMessages [ {| role := "tool"; content := "42" |} ]) 0
   = Some (User "42")) /\
  (forall c,
     nth_error (convertMessages [ {| role := "tool"; content := "42" |} ]) 0
     = Some (Assistant c) ->
     "tool" = "assistant" /\ c = "42").
Proof.
  apply (convertMessages_default_turn
           [ {| role := "tool"; content := "42" |} ] 0
           {| role := "tool"; content := "42" |}).
  reflexivity.
Defined.

Lemma substring_length (n m : nat) (s : string) :
  String.length (substring n m s) = Nat.min m (String.length s - n).
Proof.
  revert n m. induction s as [|c s IH]; intros n m.
  - destruct n, m; cbn; lia.
  - destruct n as [|n].
    + destruct m as [|m]; [reflexivity|].
      cbn [substring String.length]. rewrite IH. cbn. lia.
    + cbn [substring String.length]. rewrite IH. reflexivity.
Qed.

Lemma prefix_append (a b : string) : String.prefix a (a ++ b) = true.
Proof.
  induction a as [|c a IH]; cbn.
  - now destruct b.
  - destruct (ascii_dec c c) as [_|N]; [exact IH|now destruct N].
Qed.

(** X10. An identifier is the prefix "chatcmpl-" followed by at most 13
    characters: those of the base-36 rendering of the random number from
    its third character on. *)
Theorem generateId_shape (host : Host) :
  String.prefix "chatcmpl-" (generateId host) = true /\
  String.length (generateId host)
  = (9 + Nat.min 13 (String.length (Math_random_toString36 host) - 2))%nat.
Proof.
  unfold generateId. split; [apply prefix_append|].
  rewrite length_append, substring_length. reflexivity.
Qed.

(* ================================================================== *)
(** ** Failures of the provider *)
(* ================================================================== *)

Lemma rethrow_translated {S A} (e : JsError) (s : S) :
  @rethrow S A e s = (Throw (translated e), s).
Proof. destruct e; reflexivity. Qed.

Section ProviderFailures.

Variable lm : ModelProvider.
Variable host : Host.
Variable request : ChatCompletionRequest.
Variables w w1 : World.
Variable m : LanguageModelChat.

Hypothesis Hinit : ensure_initialized lm w = (Ok tt, w1).
Hypothesis Hsel : selectModel (models w1) (model request) = Some m.

Lemma buffered_rejected (e : JsError) :
  sendRequest lm m (convertMessages (messages request)) = Throw e ->
  createChatCompletion lm host request w
  = (Throw (translated e),
     after_call w1 (CallSendRequest m (convertMessages (messages request))
                                    "OpenAI-like API request")).
Proof.
  intros Hsend.
  unfold createChatCompletion, bind at 1. rewrite Hinit.
  unfold bind at 1, this_models at 1. rewrite Hsel.
  unfold try_catch, bind at 1, model_sendRequest, bind at 1.
  unfold record_call, modify. rewrite Hsend.
  apply rethrow_translated.
Qed.

Lemma stream_rejected (e : JsError) :
  sendRequest lm m (convertMessages (messages request)) = Throw e ->
  createChatCompletionStream lm host request (w, [])
  = (Throw (translated e),
     (after_call w1 (CallSendRequest m (convertMessages (messages request))
                                     "OpenAI-like API streaming request"),
      [])).
Proof.
  intros Hsend.
  unfold createChatCompletionStream, bind at 1, zoom at 1.
  cbn [fst snd]. rewrite Hinit.
  unfold bind at 1, zoom at 1, this_models at 1. cbn [fst snd].
  rewrite Hsel.
  unfold try_catch, bind at 1, zoom, model_sendRequest, bind at 1.
  unfold record_call, modify. cbn [fst snd]. rewrite Hsend.
  apply rethrow_translated.
Qed.

Lemma buffered_interrupted (frags : list string) (e : JsError) :
  sendRequest lm m (convertMessages (messages request))
  = Ok {| fragments := frags; failure := Some e |} ->
  createChatCompletion lm host request w
  = (Throw (translated e),
     after_call w1 (CallSendRequest m (convertMessages (messages request))
                                    "OpenAI-like API request")).
Proof.
  intros Hsend.
  unfold createChatCompletion, bind at 1. rewrite Hinit.
  unfold bind at 1, this_models at 1. rewrite Hsel.
  unfold try_catch, bind at 1, model_sendRequest, bind at 1.
  unfold record_call, modify. rewrite Hsend.
  unfold bind, accumulate, throw. cbn [fragments failure].
  apply rethrow_translated.
Qed.

Lemma stream_interrupted (frags : list string) (e : JsError) :
  sendRequest lm m (convertMessages (messages request))
  = Ok {| fragments := frags; failure := Some e |} ->
  createChatCompletionStream lm host request (w, [])
  = (Throw (translated e),
     (after_call w1 (CallSendRequest m (convertMessages (messages request))
                                     "OpenAI-like API streaming request"),
      first_chunk (generateId host) (now_seconds host) m
        :: map (content_chunk (generateId host) (now_seconds host) m) frags)).
Proof.
  intros Hsend.
  unfold createChatCompletionStream, bind at 1, zoom at 1.
  cbn [fst snd]. rewrite Hinit.
  unfold bind at 1, zoom at 1, this_models at 1. cbn [fst snd].
  rewrite Hsel.
  unfold try_catch, bind at 1, zoom, model_sendRequest, bind at 1.
  unfold record_call, modify. cbn [fst snd]. rewrite Hsend.
  unfold bind at 1, yield at 1, modify. cbn [fst snd fragments failure].
  unfold bind at 1. rewrite for_of_yield.
  unfold throw. apply rethrow_translated.
Qed.

(** X11. When [sendRequest] rejects, both paths throw the translated
    error after the one request to the provider: a language-model error
    is wrapped with its message and code, any other error is passed on
    as it is.  The stream yields no chunk at all. *)
Theorem rejection_is_translated (e : JsError) :
  sendRequest lm m (convertMessages (messages request)) = Throw e ->
  createChatCompletion lm host request w
  = (Throw (translated e),
     after_call w1 (CallSendRequest m (convertMessages (messages request))
                                    "OpenAI-like API request")) /\
  createChatCompletionStream lm host request (w, [])
  = (Throw (translated e),
     (after_call w1 (CallSendRequest m (convertMessages (messages request))
                                     "OpenAI-like API streaming request"),
      [])).
Proof.
  intros Hsend. split.
  - exact (buffered_rejected e Hsend).
  - exact (stream_rejected e Hsend).
Qed.

(** X12. When the answer breaks off with an error after the fragments
    [frags], the buffered path throws the translated error and returns
    no response; the stream has yielded the role chunk and one chunk for
    each fragment, in order, and no terminal chunk, before it throws the
    same error. *)
Theorem interrupted_answer (frags : list string) (e : JsError) :
  sendRequest lm m (convertMessages (messages request))
  = Ok {| fragments := frags; failure := Some e |} ->
  createChatCompletion lm host request w
  = (Throw (translated e),
     after_call w1 (CallSendRequest m (convertMessages (messages request))
                                    "OpenAI-like API request")) /\
  createChatCompletionStream lm host request (w, [])
  = (Throw (translated e),
     (after_call w1 (CallSendRequest m (convertMessages (messages request))
                                     "OpenAI-like API streaming request"),
      first_chunk (generateId host) (now_seconds host) m
        :: map (content_chunk (generateId host) (now_seconds host) m) frags)).
Proof.
  intros Hsend. split.
  - exact (buffered_interrupted frags e Hsend).
  - exact (stream_interrupted frags e Hsend).
Qed.

End ProviderFailures.

Lemma rejection_is_translated_witness :
  createChatCompletion acme_blocked a_host
    {| model := None; messages := [hello]; stream := false |} cold
  = (Throw (translated (LanguageModelError "Quota exceeded" "Blocked")),
     after_call {| models := [acme_fast];
                   calls := [CallSelectChatModels (Some "copilot")] |}
                (CallSendRequest acme_fast (convertMessages [hello])
                                 "OpenAI-like API request")) /\
  createChatCompletionStream acme_blocked a_host
    {| model := None; messages := [hello]; stream := false |} (cold, [])
  = (Throw (translated (LanguageModelError "Quota exceeded" "Blocked")),
     (after_call {| models := [acme_fast];
                    calls := [CallSelectChatModels (Some "copilot")] |}
                 (CallSendRequest acme_fast (convertMessages [hello])
                                  "OpenAI-like API streaming request"),
      [])).
Proof.
  apply (rejection_is_translated acme_blocked a_host
           {| model := None; messages := [hello]; stream := false |}
           cold
           {| models := [acme_fast];
              calls := [CallSelectChatModels (Some "copilot")] |}
           acme_fast).
  - reflexivity.
  - reflexivity.
  - reflexivity.
Defined.

Lemma interrupted_answer_witness :
  createChatCompletion acme_interrupted a_host
    {| model := None; messages := [hello]; stream := true |} cold
  = (Throw (translated (LanguageModelError "Stream reset" "Unknown")),
     after_call {| models := [acme_fast];
                   calls := [CallSelectChatModels (Some "copilot")] |}
                (CallSendRequest acme_fast (convertMessages [hello])
                                 "OpenAI-like API request")) /\
  createChatCompletionStream acme_interrupted a_host
    {| model := None; messages := [hello]; stream := true |} (cold, [])
  = (Throw (translated (LanguageModelError "Stream reset" "Unknown")),
     (after_call {| models := [acme_fast];
                    calls := [CallSelectChatModels (Some "copilot")] |}
                 (CallSendRequest acme_fast (convertMessages [hello])
                                  "OpenAI-like API streaming request"),
      first_chunk (generateId a_host) (now_seconds a_host) acme_fast
        :: map (content_chunk (generateId a_host) (now_seconds a_host) acme_fast)
               ["Hi "; "there!"])).
Proof.
  apply (interrupted_answer acme_interrupted a_host
           {| model := None; messages := [hello]; stream := true |}
           cold
           {| models := [acme_fast];
              calls := [CallSelectChatModels (Some "copilot")] |}
           acme_fast eq_refl eq_refl ["Hi "; "there!"]
           (LanguageModelError "Stream reset" "Unknown")).
  reflexivity.
Defined.

(* ================================================================== *)
(** ** Calls on the provider *)
(* ================================================================== *)

Lemma selectModel_some ms modelName :
  ms <> [] -> exists m, selectModel ms modelName = Some m.
Proof.
  intros Hne. destruct ms as [|m0 rest]; [contradiction|].
  unfold selectModel. destruct modelName as [name|]; [|now exists m0].
  destruct (falsy (Some name)); [now exists m0|].
  destruct (find _ (m0 :: rest)) as [m|]; [now exists m|now exists m0].
Qed.

Lemma ensure_initialized_warm lm w :
  models w <> [] -> ensure_initialized lm w = (Ok tt, w).
Proof.
  intros Hne. unfold ensure_initialized, bind, this_models.
  destruct (models w) as [|m0 rest]; [contradiction|reflexivity].
Qed.

(** X13. With a model in the cache, a buffered completion makes exactly
    one call on the provider, the request to the selected model, and no
    discovery query; the cache is left as it was.  This holds whatever
    the provider answers. *)
Theorem warm_cache_single_call lm host request w :
  models w <> [] ->
  exists m,
    selectModel (models w) (model request) = Some m /\
    snd (createChatCompletion lm host request w)
    = after_call w (CallSendRequest m (convertMessages (messages request))
                                    "OpenAI-like API request").
Proof.
  intros Hne. destruct (selectModel_some (models w) (model request) Hne) as [m Hm].
  exists m. split; [exact Hm|].
  unfold createChatCompletion, bind at 1.
  rewrite (ensure_initialized_warm lm w Hne).
  unfold bind at 1, this_models at 1. rewrite Hm.
  unfold try_catch, bind at 1, model_sendRequest, bind at 1.
  unfold record_call, modify.
  destruct (sendRequest lm m (convertMessages (messages request)))
    as [[fr [e|]]|e].
  - unfold bind, accumulate, throw. cbn [fragments failure].
    now rewrite rethrow_translated.
  - reflexivity.
  - now rewrite rethrow_translated.
Qed.

Lemma warm_cache_single_call_witness :
  exists m,
    selectModel [acme_fast] (Some "fast") = Some m /\
    snd (createChatCompletion acme_blocked a_host
           {| model := Some "fast"; messages := [hello]; stream := false |}
           {| models := [acme_fast]; calls := [] |})
    = after_call {| models := [acme_fast]; calls := [] |}
                 (CallSendRequest m (convertMessages [hello])
                                  "OpenAI-like API request").
Proof.
  apply (warm_cache_single_call acme_blocked a_host
           {| model := Some "fast"; messages := [hello]; stream := false |}
           {| models := [acme_fast]; calls := [] |}).
  discriminate.
Defined.

(** A buffered completion succeeds only along one path. *)
Lemma createChatCompletion_success lm host request w resp w' :
  createChatCompletion lm host request w = (Ok resp, w') ->
  exists w1 m frags,
    ensure_initialized lm w = (Ok tt, w1) /\
    selectModel (models w1) (model request) = Some m /\
    sendRequest lm m (convertMessages (messages request))
    = Ok {| fragments := frags; failure := None |} /\
    resp = completion_of host request m (String.concat EmptyString frags) /\
    w' = after_call w1 (CallSendRequest m (convertMessages (messages request))
                                        "OpenAI-like API request").
Proof.
  intros H.
  destruct (ensure_initialized lm w) as [[[]|e] w1] eqn:Hinit.
  - destruct (selectModel (models w1) (model request)) as [m|] eqn:Hsel.
    + destruct (sendRequest lm m (convertMessages (messages request)))
        as [[fr [e|]]|e] eqn:Hsend.
      * rewrite (buffered_interrupted lm host request w w1 m Hinit Hsel
                   fr e Hsend) in H. discriminate H.
      * rewrite (createChatCompletion_run lm host request w w1 m fr
                   Hinit Hsel Hsend) in H.
        injection H as <- <-. exists w1, m, fr. repeat split; assumption.
      * rewrite (buffered_rejected lm host request w w1 m Hinit Hsel
                   e Hsend) in H. discriminate H.
    + revert H. unfold createChatCompletion, bind at 1. rewrite Hinit.
      unfold bind at 1, this_models at 1. rewrite Hsel.
      unfold try_catch, throw, undefined_sendRequest, rethrow.
      intros H; discriminate H.
  - revert H. unfold createChatCompletion, bind at 1. rewrite Hinit.
    intros H; discriminate H.
Qed.

(** X14. A buffered response has the object tag chat.completion, the
    identifier and the time of the host, and exactly one choice: index 0,
    role assistant, finish_reason stop.  Its model field is one of the
    identifiers [listModels] returns in the state the call leaves. *)
Theorem completion_response_shape lm host request w resp w' :
  createChatCompletion lm host request w = (Ok resp, w') ->
  resp_object resp = "chat.completion" /\
  resp_id resp = generateId host /\
  resp_created resp = now_seconds host /\
  (exists ids, listModels w' = (Ok ids, w') /\ In (resp_model resp) ids) /\
  exists c, choices resp = [c] /\ index c = 0%Z /\
            role (message c) = "assistant" /\ finish_reason c = stop.
Proof.
  intros H. apply createChatCompletion_success in H.
  destruct H as (w1 & m & frags & _ & Hsel & _ & -> & ->).
  repeat split.
  - eexists. split; [reflexivity|]. cbn [after_call models completion_of resp_model].
    apply in_map. exact (selectModel_member _ _ _ Hsel).
  - eexists. repeat split.
Qed.

Lemma completion_response_shape_witness :
  resp_object (completion_of a_host
                 {| model := None; messages := [hello]; stream := false |}
                 acme_fast "Hi there!") = "chat.completion" /\
  resp_id (completion_of a_host
             {| model := None; messages := [hello]; stream := false |}
             acme_fast "Hi there!") = generateId a_host /\
  resp_created (completion_of a_host
                  {| model := None; messages := [hello]; stream := false |}
                  acme_fast "Hi there!") = now_seconds a_host /\
  (exists ids,
     listModels {| models := [acme_fast];
                   calls := [CallSelectChatModels (Some "copilot");
                             CallSendRequest acme_fast [User "Hello!"]
                                             "OpenAI-like API request"] |}
     = (Ok ids, {| models := [acme_fast];
                   calls := [CallSelectChatModels (Some "copilot");
                             CallSendRequest acme_fast [User "Hello!"]
                                             "OpenAI-like API request"] |}) /\
     In "acme-fast" ids) /\
  exists c, [ {| index := 0;
                 message := {| role := "assistant"; content := "Hi there!" |};
                 finish_reason := stop |} ] = [c] /\
            index c = 0%Z /\
            role (message c) = "assistant" /\ finish_reason c = stop.
Proof.
  apply (completion_response_shape acme a_host
           {| model := None; messages := [hello]; stream := false |}
           cold
           (completion_of a_host
              {| model := None; messages := [hello]; stream := false |}
              acme_fast "Hi there!")
           {| models := [acme_fast];
              calls := [CallSelectChatModels (Some "copilot");
                        CallSendRequest acme_fast [User "Hello!"]
                                        "OpenAI-like API request"] |}).
  reflexivity.
Defined.

Lemma initialize_calls lm w :
  exists rest,
    calls (snd (initialize lm w))
    = (calls w ++ CallSelectChatModels (Some "copilot") :: rest)%list.
Proof.
  unfold initialize, try_catch, bind, lm_selectChatModels, bind, record_call,
    set_models, this_models, modify, ret, throw.
  destruct (selectChatModels lm (Some "copilot")) as [ms|e]; cbn [fst snd].
  - destruct ms as [|m0 rest]; cbn.
    + destruct (selectChatModels lm None) as [ms'|e]; cbn;
        exists [CallSelectChatModels None]; now rewrite <- app_assoc.
    + now exists [].
  - now exists [].
Qed.

Lemma ensure_initialized_calls lm w :
  exists rest, calls (snd (ensure_initialized lm w)) = (calls w ++ rest)%list.
Proof.
  unfold ensure_initialized, bind, this_models.
  destruct (models w) as [|m0 ms]; cbn [List.length Nat.eqb].
  - destruct (initialize_calls lm w) as [rest H]. eexists. exact H.
  - exists []. cbn. now rewrite app_nil_r.
Qed.

Lemma createChatCompletion_calls lm host request w :
  exists rest,
    calls (snd (createChatCompletion lm host request w)) = (calls w ++ rest)%list.
Proof.
  destruct (ensure_initialized_calls lm w) as [rest1 H1].
  unfold createChatCompletion, bind at 1.
  destruct (ensure_initialized lm w) as [[[]|e] w1]; cbn [snd] in H1.
  - unfold bind at 1, this_models at 1.
    destruct (selectModel (models w1) (model request)) as [m|].
    + unfold try_catch, bind at 1, model_sendRequest, bind at 1.
      unfold record_call, modify.
      exists (rest1 ++ [CallSendRequest m (convertMessages (messages request))
                                        "OpenAI-like API request"])%list.
      rewrite app_assoc, <- H1.
      destruct (sendRequest lm m (convertMessages (messages request)))
        as [[fr [e|]]|e].
      * unfold bind, accumulate, throw. cbn [fragments failure].
        now rewrite rethrow_translated.
      * reflexivity.
      * now rewrite rethrow_translated.
    + exists rest1. unfold try_catch, throw. now rewrite rethrow_translated.
  - exists rest1. exact H1.
Qed.

(** X15. Every call of the wrapper, for completions or for the model
    list, starts with a discovery query for the default vendor, whatever
    the cache holds: the first call it adds on the provider is that
    query. *)
Theorem wrapper_rediscovers lm host request w :
  (exists rest,
     calls (snd (api_handleChatCompletions lm host request w))
     = (calls w ++ CallSelectChatModels (Some "copilot") :: rest)%list) /\
  (exists rest,
     calls (snd (api_handleModels lm host w))
     = (calls w ++ CallSelectChatModels (Some "copilot") :: rest)%list).
Proof.
  destruct (initialize_calls lm w) as [rest0 H0]. split.
  - unfold api_handleChatCompletions, bind at 1.
    destruct (initialize lm w) as [[[]|e] w1]; cbn [snd] in H0.
    + destruct (stream request).
      * exists rest0. exact H0.
      * destruct (createChatCompletion_calls lm host request w1) as [rest1 H1].
        unfold bind.
        destruct (createChatCompletion lm host request w1) as [[c|e] w2];
          unfold ret; cbn [snd] in *; exists (rest0 ++ rest1)%list;
          rewrite H1, H0, <- app_assoc; reflexivity.
    + exists rest0. exact H0.
  - unfold api_handleModels, bind at 1.
    destruct (initialize lm w) as [[[]|e] w1]; cbn [snd] in H0;
      exists rest0; exact H0.
Qed.

(* ================================================================== *)
(** ** Routing *)
(* ================================================================== *)

(** X16. An OPTIONS request, whatever its path and body, is answered
    with status 200, no data and the three CORS headers; nothing is
    routed: the API object is untouched and the provider is not called. *)
Theorem options_preflight lm host req w :
  method req = "OPTIONS" ->
  serve lm host req w = (Ok tt, (w, completed 200 [] [])).
Proof.
  destruct req as [meth path b]. cbn [method]. intros ->.
  destruct w. reflexivity.
Qed.

Lemma options_preflight_witness :
  serve broken_discovery a_host
        {| method := "OPTIONS"; pathname := "/v1/chat/completions";
           body := Throw NonError |} cold
  = (Ok tt, (cold, completed 200 [] [])).
Proof.
  apply (options_preflight broken_discovery a_host
           {| method := "OPTIONS"; pathname := "/v1/chat/completions";
              body := Throw NonError |} cold).
  reflexivity.
Defined.

(** What [handleRequest] does once the CORS headers are set and the
    method is not OPTIONS. *)
Lemma serve_routes lm host req w :
  (method req =? "OPTIONS") = false ->
  serve lm host req w
  = try_catch
      (if (pathname req =? "/v1/chat/completions") && (method req =? "POST")
       then handleChatCompletions lm host req
       else if (pathname req =? "/v1/models") && (method req =? "GET")
       then handleModels lm host req
       else if (pathname req =? "/health") && (method req =? "GET")
       then handleHealth host req
       else zoom_snd (sendError 404 "Not Found"
                                "The requested endpoint was not found"))
      (fun error =>
         zoom_snd (sendError 500 "Internal Server Error"
                             (message_or error "Unknown error")))
      (w, cors_response).
Proof.
  intros Hm. unfold serve, handleRequest.
  unfold bind at 1, zoom_snd at 1, setHeader at 1, modify at 1. cbn [fst snd].
  unfold bind at 1, zoom_snd at 1, setHeader at 1, modify at 1. cbn [fst snd].
  unfold bind at 1, zoom_snd at 1, setHeader at 1, modify at 1. cbn [fst snd].
  rewrite Hm. reflexivity.
Qed.

(** X17. A request that is not OPTIONS and matches none of the three
    routes is answered with status 404 and the envelope of type
    not_found; the API object is untouched. *)
Theorem unknown_route_404 lm host req w :
  method req <> "OPTIONS" ->
  ~ (pathname req = "/v1/chat/completions" /\ method req = "POST") ->
  ~ (pathname req = "/v1/models" /\ method req = "GET") ->
  ~ (pathname req = "/health" /\ method req = "GET") ->
  serve lm host req w
  = (Ok tt, (w, completed 404 json_type
                  [ErrorEnvelope "not_found"
                                 "The requested endpoint was not found"])).
Proof.
  intros Hopt H1 H2 H3.
  rewrite serve_routes by (now apply String.eqb_neq).
  assert (E1 : (pathname req =? "/v1/chat/completions") && (method req =? "POST")
               = false).
  { apply andb_false_iff.
    destruct (String.eqb_spec (pathname req) "/v1/chat/completions") as [Hp|];
      [|now left].
    destruct (String.eqb_spec (method req) "POST") as [Hq|]; [|now right].
    now destruct H1. }
  assert (E2 : (pathname req =? "/v1/models") && (method req =? "GET") = false).
  { apply andb_false_iff.
    destruct (String.eqb_spec (pathname req) "/v1/models") as [Hp|];
      [|now left].
    destruct (String.eqb_spec (method req) "GET") as [Hq|]; [|now right].
    now destruct H2. }
  assert (E3 : (pathname req =? "/health") && (method req =? "GET") = false).
  { apply andb_false_iff.
    destruct (String.eqb_spec (pathname req) "/health") as [Hp|];
      [|now left].
    destruct (String.eqb_spec (method req) "GET") as [Hq|]; [|now right].
    now destruct H3. }
  rewrite E1, E2, E3. destruct w. reflexivity.
Qed.

Lemma unknown_route_404_witness :
  serve acme a_host
        {| method := "POST"; pathname := "/health"; body := Ok (Ok JsonNull) |}
        cold
  = (Ok tt, (cold, completed 404 json_type
                     [ErrorEnvelope "not_found"
                                    "The requested endpoint was not found"])).
Proof.
  apply (unknown_route_404 acme a_host
           {| method := "POST"; pathname := "/health"; body := Ok (Ok JsonNull) |}
           cold).
  - discriminate.
  - intros [H _]. discriminate H.
  - intros [H _]. discriminate H.
  - intros [_ H]. discriminate H.
Defined.

(** X18. GET /health is answered with status 200 and the status healthy,
    with the time and the label of the server; it does not depend on
    the provider, which is not called. *)
Theorem health_route lm host req w :
  method req = "GET" ->
  pathname req = "/health" ->
  serve lm host req w
  = (Ok tt, (w, completed 200 json_type
                  [HealthJson "healthy" (Date_toISOString host)
                              "VS Code LLM API"])).
Proof.
  destruct req as [meth path b]. cbn [method pathname]. intros -> ->.
  destruct w. reflexivity.
Qed.

Lemma health_route_witness :
  serve broken_discovery a_host
        {| method := "GET"; pathname := "/health"; body := Ok (Ok JsonNull) |}
        cold
  = (Ok tt, (cold, completed 200 json_type
                     [HealthJson "healthy" (Date_toISOString a_host)
                                 "VS Code LLM API"])).
Proof.
  apply (health_route broken_discovery a_host
           {| method := "GET"; pathname := "/health"; body := Ok (Ok JsonNull) |}
           cold).
  - reflexivity.
  - reflexivity.
Defined.

(** X19. A completion request whose body does not parse is answered with
    status 400 and type bad_request, carrying the message of the parse
    error; the API object is untouched. *)
Theorem unparsable_body_400 lm host req w e :
  method req = "POST" ->
  pathname req = "/v1/chat/completions" ->
  body req = Ok (Throw e) ->
  serve lm host req w
  = (Ok tt, (w, completed 400 json_type
                  [ErrorEnvelope "bad_request" (message_or e "Invalid request")])).
Proof.
  destruct req as [meth path b]. cbn [method pathname body]. intros -> -> ->.
  destruct w. reflexivity.
Qed.

Lemma unparsable_body_400_witness :
  serve acme a_host
        {| method := "POST"; pathname := "/v1/chat/completions";
           body := Ok (Throw (Error "Unexpected end of JSON input")) |} cold
  = (Ok tt, (cold, completed 400 json_type
                     [ErrorEnvelope "bad_request"
                        (message_or (Error "Unexpected end of JSON input")
                                    "Invalid request")])).
Proof.
  apply (unparsable_body_400 acme a_host
           {| method := "POST"; pathname := "/v1/chat/completions";
              body := Ok (Throw (Error "Unexpected end of JSON input")) |}
           cold (Error "Unexpected end of JSON input")).
  - reflexivity.
  - reflexivity.
  - reflexivity.
Defined.

(** X20. When reading the body of a completion request fails, the error
    escapes the route handler and is answered by [handleRequest] with
    status 500 and an envelope carrying the message of the error; the
    API object is untouched. *)
Theorem body_read_error_500 lm host req w e :
  method req = "POST" ->
  pathname req = "/v1/chat/completions" ->
  body req = Throw e ->
  exists type,
    serve lm host req w
    = (Ok tt, (w, completed 500 json_type
                    [ErrorEnvelope type (message_or e "Unknown error")])).
Proof.
  destruct req as [meth path b]. cbn [method pathname body]. intros -> -> ->.
  destruct w. eexists. reflexivity.
Qed.

Lemma body_read_error_500_witness :
  exists type,
    serve acme a_host
          {| method := "POST"; pathname := "/v1/chat/completions";
             body := Throw (Error "aborted") |} cold
    = (Ok tt, (cold, completed 500 json_type
                       [ErrorEnvelope type
                                      (message_or (Error "aborted") "Unknown error")])).
Proof.
  apply (body_read_error_500 acme a_host
           {| method := "POST"; pathname := "/v1/chat/completions";
              body := Throw (Error "aborted") |}
           cold (Error "aborted")).
  - reflexivity.
  - reflexivity.
  - reflexivity.
Defined.

(* ================================================================== *)
(** ** The model list *)
(* ================================================================== *)

(** X21. When discovery succeeds, GET /v1/models is answered with status
    200 and one entry for each cached model, in discovery order: its
    identifier is vendor-family, its object tag model, its owner vscode
    and its time the current second. *)
Theorem models_route lm host req w w1 :
  method req = "GET" ->
  pathname req = "/v1/models" ->
  initialize lm w = (Ok tt, w1) ->
  exists data,
    serve lm host req w = (Ok tt, (w1, completed 200 json_type [ModelsJson data])) /\
    map entry_id data = map composite (models w1) /\
    forall entry, In entry data ->
                  entry_object entry = "model" /\
                  owned_by entry = "vscode" /\
                  entry_created entry = now_seconds host.
Proof.
  destruct req as [meth path b]. cbn [method pathname]. intros -> -> Hinit.
  eexists. split; [|split].
  - rewrite serve_routes by reflexivity.
    cbn [method pathname String.eqb Ascii.eqb Bool.eqb andb].
    unfold handleModels, try_catch, bind at 1, zoom at 1. cbn [fst snd].
    unfold api_handleModels, bind at 1. rewrite Hinit.
    unfold bind at 1, listModels, bind at 1, this_models, ret.
    destruct w1. reflexivity.
  - rewrite map_map. cbn [entry_id]. now rewrite map_id.
  - intros entry Hin. apply in_map_iff in Hin. destruct Hin as (x & <- & _).
    repeat split.
Qed.

Lemma models_route_witness :
  exists data,
    serve acme a_host get_models cold
    = (Ok tt, ({| models := [acme_fast];
                  calls := [CallSelectChatModels (Some "copilot")] |},
               completed 200 json_type [ModelsJson data])) /\
    map entry_id data = map composite [acme_fast] /\
    forall entry, In entry data ->
                  entry_object entry = "model" /\
                  owned_by entry = "vscode" /\
                  entry_created entry = now_seconds a_host.
Proof.
  apply (models_route acme a_host get_models cold
           {| models := [acme_fast];
              calls := [CallSelectChatModels (Some "copilot")] |}).
  - reflexivity.
  - reflexivity.
  - reflexivity.
Defined.

(** X22. When discovery fails, GET /v1/models is answered with status
    500 and the message of the error of [initialize]; the message of the
    provider's own error is not shown. *)
Theorem models_route_failure lm host req w e w1 :
  method req = "GET" ->
  pathname req = "/v1/models" ->
  initialize lm w = (Throw e, w1) ->
  exists type,
    serve lm host req w
    = (Ok tt, (w1, completed 500 json_type
                     [ErrorEnvelope type (error_message no_models_error)])).
Proof.
  destruct req as [meth path b]. cbn [method pathname]. intros -> -> Hinit.
  assert (He : e = no_models_error).
  { destruct (initialize_outcome lm w) as [H | H];
      rewrite Hinit in H; cbn [fst] in H; congruence. }
  subst e. eexists.
  rewrite serve_routes by reflexivity.
  cbn [method pathname String.eqb Ascii.eqb Bool.eqb andb].
  unfold handleModels, try_catch, bind at 1, zoom at 1. cbn [fst snd].
  unfold api_handleModels, bind at 1. rewrite Hinit.
  destruct w1. reflexivity.
Qed.

Lemma models_route_failure_witness :
  exists type,
    serve broken_discovery a_host get_models cold
    = (Ok tt, ({| models := [];
                  calls := [CallSelectChatModels (Some "copilot")] |},
               completed 500 json_type
                 [ErrorEnvelope type (error_message no_models_error)])).
Proof.
  apply (models_route_failure broken_discovery a_host get_models cold
           no_models_error
           {| models := [];
              calls := [CallSelectChatModels (Some "copilot")] |}).
  - reflexivity.
  - reflexivity.
  - reflexivity.
Defined.

(* ================================================================== *)
(** ** Completions through the gateway *)
(* ================================================================== *)

(** The completion route on a body that passes validation. *)
Lemma serve_valid_completion lm host r w :
  Array_isArray (raw_messages r) = true ->
  serve lm host (post_completions r) w
  = try_catch
      (try_catch
         (response <- zoom (api_handleChatCompletions lm host
                                                      (as_request (JsonValue r))) ;;
          match response with
          | inr generator =>
              zoom_snd (writeHead 200 event_stream_type) ;;
              for_await generator (fun chunk => write (SseData chunk)) ;;
              zoom_snd (write SseDone) ;;
              zoom_snd (end_ None)
          | inl completion =>
              zoom_snd (writeHead 200 json_type) ;;
              zoom_snd (end_ (Some (CompletionJson completion)))
          end)
         (fun error =>
            zoom_snd (sendError 400 "Bad Request"
                                (message_or error "Invalid request"))))
      (fun error =>
         zoom_snd (sendError 500 "Internal Server Error"
                             (message_or error "Unknown error")))
      (w, cors_response).
Proof.
  intros Harr. rewrite serve_routes by reflexivity.
  cbn [post_completions method pathname String.eqb Ascii.eqb Bool.eqb andb].
  unfold handleChatCompletions, readRequestBody, JSON_parse, request_messages.
  unfold try_catch, bind, ret, post_completions. cbn [body]. cbv beta iota.
  assert (Htruthy : truthy (raw_messages r) = true)
    by (destruct (raw_messages r); try discriminate Harr; reflexivity).
  rewrite Htruthy, Harr. reflexivity.
Qed.

Lemma selectModel_cache_not_empty ms modelName m :
  selectModel ms modelName = Some m -> ms <> [].
Proof. intros H ->. rewrite selectModel_nil in H. discriminate H. Qed.

(** X23. Whatever the wrapper throws for a body that passed validation
    - a failed discovery, a rejected or interrupted buffered request -
    the route handler answers with status 400 and an envelope carrying
    the message of the error. *)
Theorem wrapper_failure_answered_400 lm host r w e w' :
  Array_isArray (raw_messages r) = true ->
  api_handleChatCompletions lm host (as_request (JsonValue r)) w = (Throw e, w') ->
  exists type,
    serve lm host (post_completions r) w
    = (Ok tt, (w', completed 400 json_type
                     [ErrorEnvelope type (message_or e "Invalid request")])).
Proof.
  intros Harr Hfail. rewrite (serve_valid_completion lm host r w Harr).
  unfold try_catch, bind at 1, zoom at 1. cbn [fst snd]. rewrite Hfail.
  eexists. reflexivity.
Qed.

Lemma wrapper_failure_answered_400_witness :
  exists type,
    serve broken_discovery a_host
          (post_completions {| raw_model := None;
                               raw_messages := array [hello];
                               raw_stream := true |}) cold
    = (Ok tt, ({| models := [];
                  calls := [CallSelectChatModels (Some "copilot")] |},
               completed 400 json_type
                 [ErrorEnvelope type (message_or no_models_error "Invalid request")])).
Proof.
  apply (wrapper_failure_answered_400 broken_discovery a_host
           {| raw_model := None; raw_messages := array [hello]; raw_stream := true |}
           cold no_models_error
           {| models := []; calls := [CallSelectChatModels (Some "copilot")] |}).
  - reflexivity.
  - reflexivity.
Defined.

(** X24. A buffered completion through the gateway: when discovery
    succeeds and the selected model answers with the fragments [frags],
    the response has status 200, the JSON content type and, as its only
    data, the completion whose content is the fragments put together. *)
Theorem buffered_completion_served lm host r w w1 m frags :
  Array_isArray (raw_messages r) = true ->
  raw_stream r = false ->
  initialize lm w = (Ok tt, w1) ->
  selectModel (models w1) (raw_model r) = Some m ->
  sendRequest lm m (convertMessages (items_of (raw_messages r)))
  = Ok {| fragments := frags; failure := None |} ->
  serve lm host (post_completions r) w
  = (Ok tt,
     (after_call w1 (CallSendRequest m (convertMessages (items_of (raw_messages r)))
                                     "OpenAI-like API request"),
      completed 200 json_type
        [CompletionJson (completion_of host (as_request (JsonValue r)) m
                                       (String.concat EmptyString frags))])).
Proof.
  intros Harr Hstream Hinit Hsel Hsend.
  rewrite (serve_valid_completion lm host r w Harr).
  unfold try_catch, bind at 1, zoom at 1. cbn [fst snd].
  unfold api_handleChatCompletions, bind at 1. rewrite Hinit.
  change (stream (as_request (JsonValue r))) with (raw_stream r).
  rewrite Hstream. unfold bind at 1.
  rewrite (createChatCompletion_run lm host (as_request (JsonValue r))
             w1 w1 m frags
             (ensure_initialized_warm lm w1
                (selectModel_cache_not_empty _ _ _ Hsel))
             Hsel Hsend).
  reflexivity.
Qed.

Lemma buffered_completion_served_witness :
  serve acme a_host
        (post_completions {| raw_model := None;
                             raw_messages := array [hello];
                             raw_stream := false |}) cold
  = (Ok tt,
     (after_call {| models := [acme_fast];
                    calls := [CallSelectChatModels (Some "copilot")] |}
                 (CallSendRequest acme_fast (convertMessages [hello])
                                  "OpenAI-like API request"),
      completed 200 json_type
        [CompletionJson
           (completion_of a_host
              (as_request (JsonValue {| raw_model := None;
                                        raw_messages := array [hello];
                                        raw_stream := false |}))
              acme_fast (String.concat EmptyString ["Hi "; "there!"]))])).
Proof.
  apply (buffered_completion_served acme a_host
           {| raw_model := None; raw_messages := array [hello]; raw_stream := false |}
           cold
           {| models := [acme_fast];
              calls := [CallSelectChatModels (Some "copilot")] |}
           acme_fast ["Hi "; "there!"]).
  - reflexivity.
  - reflexivity.
  - reflexivity.
  - reflexivity.
  - reflexivity.
Defined.

Lemma for_of_write (chunks : list ChatCompletionStreamResponse)
      (res : ServerResponse) :
  for_of chunks (fun chunk => write (SseData chunk)) res
  = (Ok tt, {| headers := headers res;
               head := head res;
               written := (written res ++ map SseData chunks)%list;
               ended := ended res |}).
Proof.
  revert res. induction chunks as [|c chunks IH]; intros res.
  - cbn. unfold ret. rewrite app_nil_r. now destruct res.
  - cbn [for_of map]. unfold bind, write at 1, modify. rewrite IH.
    cbn [headers head written ended]. now rewrite <- app_assoc.
Qed.

(** The streaming branch once the wrapper has handed back the generator. *)
Lemma serve_stream lm host r w w1 :
  Array_isArray (raw_messages r) = true ->
  raw_stream r = true ->
  initialize lm w = (Ok tt, w1) ->
  serve lm host (post_completions r) w
  = try_catch
      (try_catch
         (for_await (createChatCompletionStream lm host (as_request (JsonValue r)))
                    (fun chunk => write (SseData chunk)) ;;
          zoom_snd (write SseDone) ;;
          zoom_snd (end_ None))
         (fun error =>
            zoom_snd (sendError 400 "Bad Request"
                                (message_or error "Invalid request"))))
      (fun error =>
         zoom_snd (sendError 500 "Internal Server Error"
                             (message_or error "Unknown error")))
      (w1, {| headers := cors_headers;
              head := Some (200%Z, event_stream_type);
              written := [];
              ended := false |}).
Proof.
  intros Harr Hstream Hinit.
  rewrite (serve_valid_completion lm host r w Harr).
  unfold try_catch, bind at 1, zoom at 1. cbn [fst snd].
  unfold api_handleChatCompletions, bind at 1. rewrite Hinit.
  change (stream (as_request (JsonValue r))) with (raw_stream r).
  rewrite Hstream. reflexivity.
Qed.

(** X25. A streamed completion through the gateway: when the generator
    runs to its end, the response has status 200 and the event-stream
    headers, each chunk the generator yielded is written as one data
    frame, in the order of production, the frame [DONE] follows, and the
    response is ended. *)
Theorem stream_served_as_events lm host r w w1 w2 chunks :
  Array_isArray (raw_messages r) = true ->
  raw_stream r = true ->
  initialize lm w = (Ok tt, w1) ->
  createChatCompletionStream lm host (as_request (JsonValue r)) (w1, [])
  = (Ok tt, (w2, chunks)) ->
  serve lm host (post_completions r) w
  = (Ok tt, (w2, completed 200 event_stream_type
                   (map SseData chunks ++ [SseDone]))).
Proof.
  intros Harr Hstream Hinit Hgen.
  rewrite (serve_stream lm host r w w1 Harr Hstream Hinit).
  unfold try_catch, bind at 1.
  unfold for_await. cbn [fst snd]. rewrite Hgen, for_of_write.
  unfold bind, zoom_snd, write, end_, modify, completed.
  cbn [fst snd headers head written ended app]. now rewrite app_nil_r.
Qed.

Lemma stream_served_as_events_witness :
  serve acme a_host
        (post_completions {| raw_model := None;
                             raw_messages := array [hello];
                             raw_stream := true |}) cold
  = (Ok tt,
     (after_call {| models := [acme_fast];
                    calls := [CallSelectChatModels (Some "copilot")] |}
                 (CallSendRequest acme_fast (convertMessages [hello])
                                  "OpenAI-like API streaming request"),
      completed 200 event_stream_type
        (map SseData (chunks_of a_host acme_fast ["Hi "; "there!"])
           ++ [SseDone]))).
Proof.
  apply (stream_served_as_events acme a_host
           {| raw_model := None; raw_messages := array [hello]; raw_stream := true |}
           cold
           {| models := [acme_fast];
              calls := [CallSelectChatModels (Some "copilot")] |}).
  - reflexivity.
  - reflexivity.
  - reflexivity.
  - reflexivity.
Defined.

(** X26. When the generator throws, the frames of the chunks it yielded
    before are already written under status 200.  Neither catch clause
    can then send an error head ([writeHead] throws once the head is
    written), so the handler fails itself: no error envelope and no
    [DONE] frame follow, and the response is not ended. *)
Theorem stream_failure_leaves_response_open lm host r w w1 w2 chunks e :
  Array_isArray (raw_messages r) = true ->
  raw_stream r = true ->
  initialize lm w = (Ok tt, w1) ->
  createChatCompletionStream lm host (as_request (JsonValue r)) (w1, [])
  = (Throw e, (w2, chunks)) ->
  serve lm host (post_completions r) w
  = (Throw (Error "Cannot write headers after they are sent to the client"),
     (w2, {| headers := cors_headers;
             head := Some (200%Z, event_stream_type);
             written := map SseData chunks;
             ended := false |})).
Proof.
  intros Harr Hstream Hinit Hgen.
  rewrite (serve_stream lm host r w w1 Harr Hstream Hinit).
  unfold try_catch, bind at 1.
  unfold for_await. cbn [fst snd]. rewrite Hgen, for_of_write.
  reflexivity.
Qed.

Lemma stream_failure_leaves_response_open_witness :
  serve acme_interrupted a_host
        (post_completions {| raw_model := None;
                             raw_messages := array [hello];
                             raw_stream := true |}) cold
  = (Throw (Error "Cannot write headers after they are sent to the client"),
     (after_call {| models := [acme_fast];
                    calls := [CallSelectChatModels (Some "copilot")] |}
                 (CallSendRequest acme_fast (convertMessages [hello])
                                  "OpenAI-like API streaming request"),
      {| headers := cors_headers;
         head := Some (200%Z, event_stream_type);
         written :=
           map SseData
               (first_chunk (generateId a_host) (now_seconds a_host) acme_fast
                  :: map (content_chunk (generateId a_host) (now_seconds a_host)
                                        acme_fast)
                         ["Hi "; "there!"]);
         ended := false |})).
Proof.
  apply (stream_failure_leaves_response_open acme_interrupted a_host
           {| raw_model := None; raw_messages := array [hello]; raw_stream := true |}
           cold
           {| models := [acme_fast];
              calls := [CallSelectChatModels (Some "copilot")] |}
           _ _
           (translated (LanguageModelError "Stream reset" "Unknown"))).
  - reflexivity.
  - reflexivity.
  - reflexivity.
  - reflexivity.
Defined.

(* ================================================================== *)
(** ** The CORS headers *)
(* ================================================================== *)

Section KeepsHeaders.

Lemma kh_ret {A} (a : A) : keeps_headers (ret a).
Proof. intros st. reflexivity. Qed.

Lemma kh_throw {A} (e : JsError) : keeps_headers (@throw GwState A e).
Proof. intros st. reflexivity. Qed.

Lemma kh_bind {A B} (c : M GwState A) (k : A -> M GwState B) :
  keeps_headers c -> (forall a, keeps_headers (k a)) -> keeps_headers (bind c k).
Proof.
  intros Hc Hk st. unfold bind. specialize (Hc st).
  destruct (c st) as [[a|e] st']; cbn [snd] in *.
  - now rewrite (Hk a st').
  - exact Hc.
Qed.

Lemma kh_try_catch {A} (c : M GwState A) (h : JsError -> M GwState A) :
  keeps_headers c -> (forall e, keeps_headers (h e)) ->
  keeps_headers (try_catch c h).
Proof.
  intros Hc Hh st. unfold try_catch. specialize (Hc st).
  destruct (c st) as [[a|e] st']; cbn [snd] in *.
  - exact Hc.
  - now rewrite (Hh e st').
Qed.

Lemma kh_zoom {A} (c : M World A) : keeps_headers (zoom (T := ServerResponse) c).
Proof.
  intros st. unfold zoom. now destruct (c (fst st)).
Qed.

Lemma kh_zoom_snd {A} (c : M ServerResponse A) :
  keeps_headers_res c -> keeps_headers (zoom_snd (S := World) c).
Proof.
  intros Hc st. unfold zoom_snd. specialize (Hc (snd st)).
  now destruct (c (snd st)).
Qed.

Lemma khr_bind {A B} (c : M ServerResponse A) (k : A -> M ServerResponse B) :
  keeps_headers_res c -> (forall a, keeps_headers_res (k a)) ->
  keeps_headers_res (bind c k).
Proof.
  intros Hc Hk res. unfold bind. specialize (Hc res).
  destruct (c res) as [[a|e] res']; cbn [snd] in *.
  - now rewrite (Hk a res').
  - exact Hc.
Qed.

Lemma khr_writeHead statusCode hs : keeps_headers_res (writeHead statusCode hs).
Proof. intros res. unfold writeHead. now destruct (head res). Qed.

Lemma khr_write data : keeps_headers_res (write data).
Proof. intros res. reflexivity. Qed.

Lemma khr_end data : keeps_headers_res (end_ data).
Proof. intros res. reflexivity. Qed.

Lemma khr_sendError statusCode error message :
  keeps_headers_res (sendError statusCode error message).
Proof.
  unfold sendError. apply khr_bind; [apply khr_writeHead|].
  intros _. apply khr_end.
Qed.

Lemma khr_for_of {A} (xs : list A) (body : A -> M ServerResponse unit) :
  (forall x, keeps_headers_res (body x)) -> keeps_headers_res (for_of xs body).
Proof.
  intros Hb. induction xs as [|x xs IH]; cbn [for_of].
  - intros res. reflexivity.
  - apply khr_bind; [apply Hb|]. intros _. exact IH.
Qed.

Lemma kh_for_await generator body :
  (forall chunk, keeps_headers_res (body chunk)) ->
  keeps_headers (for_await generator body).
Proof.
  intros Hb st. unfold for_await.
  destruct (generator (fst st, [])) as [outcome [w' chunks]].
  pose proof (khr_for_of chunks body Hb (snd st)) as H.
  destruct (for_of chunks body (snd st)) as [[[]|e] res']; exact H.
Qed.

Variable lm : ModelProvider.
Variable host : Host.
Variable req : IncomingMessage.

Lemma kh_handleChatCompletions : keeps_headers (handleChatCompletions lm host req).
Proof.
  unfold handleChatCompletions.
  apply kh_bind; [intros st; reflexivity|]. intros b.
  apply kh_try_catch; [|intros e; apply kh_zoom_snd, khr_sendError].
  apply kh_bind; [intros st; unfold JSON_parse; reflexivity|]. intros request.
  apply kh_bind.
  { unfold request_messages. destruct request; [apply kh_throw|apply kh_ret]. }
  intros msgs. destruct (negb (truthy msgs) || negb (Array_isArray msgs)).
  - apply kh_zoom_snd, khr_sendError.
  - apply kh_bind; [apply kh_zoom|]. intros [completion|generator].
    + apply kh_bind; [apply kh_zoom_snd, khr_writeHead|]. intros _.
      apply kh_zoom_snd, khr_end.
    + apply kh_bind; [apply kh_zoom_snd, khr_writeHead|]. intros _.
      apply kh_bind; [apply kh_for_await; intros c; apply khr_write|]. intros _.
      apply kh_bind; [apply kh_zoom_snd, khr_write|]. intros _.
      apply kh_zoom_snd, khr_end.
Qed.

Lemma kh_handleModels : keeps_headers (handleModels lm host req).
Proof.
  unfold handleModels.
  apply kh_try_catch; [|intros e; apply kh_zoom_snd, khr_sendError].
  apply kh_bind; [apply kh_zoom|]. intros data.
  apply kh_bind; [apply kh_zoom_snd, khr_writeHead|]. intros _.
  apply kh_zoom_snd, khr_end.
Qed.

Lemma kh_handleHealth : keeps_headers (handleHealth host req).
Proof.
  unfold handleHealth.
  apply kh_bind; [apply kh_zoom_snd, khr_writeHead|]. intros _.
  apply kh_zoom_snd, khr_end.
Qed.

End KeepsHeaders.

(** X27. Every request leaves the response with exactly the three CORS
    headers set ahead of [writeHead]: allow any origin, the methods GET,
    POST and OPTIONS, and the headers Content-Type and Authorization.
    This holds for every route and every outcome, failures included. *)
Theorem cors_headers_on_every_response lm host req w :
  headers (snd (snd (serve lm host req w))) = cors_headers.
Proof.
  destruct (method req =? "OPTIONS") eqn:Hm.
  - apply String.eqb_eq in Hm.
    destruct req as [meth path b]. cbn [method] in Hm. subst meth. reflexivity.
  - rewrite (serve_routes lm host req w Hm).
    change cors_headers with (headers (snd (w, cors_response))).
    generalize (w, cors_response). revert Hm. intros _.
    apply kh_try_catch; [|intros e; apply kh_zoom_snd, khr_sendError].
    destruct ((pathname req =? "/v1/chat/completions") && (method req =? "POST"));
      [apply kh_handleChatCompletions|].
    destruct ((pathname req =? "/v1/models") && (method req =? "GET"));
      [apply kh_handleModels|].
    destruct ((pathname req =? "/health") && (method req =? "GET"));
      [apply kh_handleHealth|].
    apply kh_zoom_snd, khr_sendError.
Qed.

(* ================================================================== *)
(** ** The start and stop commands *)
(* ================================================================== *)

(** X28. The commands refuse what does not apply: starting while a
    server is held, and stopping while none is, change nothing and only
    show a warning.  In particular no second server is built, whatever
    the input box and the host would answer. *)
Theorem commands_refuse parseInt portInput started stopped st :
  (server st <> None ->
   startCommand parseInt portInput started st
   = (Ok tt, {| server := server st;
                notifications :=
                  (notifications st
                     ++ [WarningMessage "LLM Server is already running"])%list |})) /\
  (server st = None ->
   stopCommand stopped st
   = (Ok tt, {| server := server st;
                notifications :=
                  (notifications st
                     ++ [WarningMessage "LLM Server is not running"])%list |})).
Proof.
  split; intros H.
  - unfold startCommand. destruct (server st) as [p|] eqn:E; [|contradiction].
    unfold show, modify. now rewrite E.
  - unfold stopCommand. rewrite H. unfold show, modify. now rewrite H.
Qed.

Lemma commands_refuse_witness :
  startCommand parseInt_3000 (Ok (Some "8080")) (Ok tt)
               {| server := Some (Int 3000); notifications := [] |}
  = (Ok tt, {| server := Some (Int 3000);
               notifications :=
                 [WarningMessage "LLM Server is already running"] |}).
Proof.
  apply (proj1 (commands_refuse parseInt_3000 (Ok (Some "8080")) (Ok tt) (Ok tt)
                  {| server := Some (Int 3000); notifications := [] |})).
  discriminate.
Defined.

Lemma validateInput_accepts parseInt entered :
  validateInput parseInt entered = None ->
  exists p, parseInt entered = Int p /\ (1 <= p <= 65535)%Z.
Proof.
  unfold validateInput. destruct (parseInt entered) as [|p]; cbn.
  - intros H; discriminate H.
  - destruct (p <? 1)%Z eqn:Hlo; cbn; [intros H; discriminate H|].
    destruct (p >? 65535)%Z eqn:Hhi; [intros H; discriminate H|].
    intros _. exists p. split; [reflexivity|].
    apply Z.ltb_ge in Hlo. rewrite Z.gtb_ltb in Hhi. apply Z.ltb_ge in Hhi. lia.
Qed.

(** X29. Start, then stop.  With no server held, an input the validation
    callback accepts and a server that starts, the start command holds a
    server built with the parsed port, which lies between 1 and 65535,
    and announces it; the stop command then drops the server and
    announces that. *)
Theorem start_then_stop parseInt entered st :
  server st = None ->
  entered <> EmptyString ->
  validateInput parseInt entered = None ->
  exists p st1 st2,
    parseInt entered = Int p /\ (1 <= p <= 65535)%Z /\
    startCommand parseInt (Ok (Some entered)) (Ok tt) st = (Ok tt, st1) /\
    server st1 = Some (Int p) /\
    notifications st1 = (notifications st ++ [InformationStarted (Int p)])%list /\
    stopCommand (Ok tt) st1 = (Ok tt, st2) /\
    server st2 = None /\
    notifications st2
    = (notifications st1 ++ [InformationMessage "LLM API Server stopped"])%list.
Proof.
  intros Hnone Hentered Hvalid.
  destruct (validateInput_accepts parseInt entered Hvalid) as (p & Hp & Hrange).
  exists p. eexists. eexists.
  split; [exact Hp|]. split; [exact Hrange|].
  split.
  { unfold startCommand. rewrite Hnone.
    unfold try_catch, bind at 1, await at 1. cbn [falsy].
    apply String.eqb_neq in Hentered. rewrite Hentered, Hp.
    unfold bind, set_server, await, show, modify. reflexivity. }
  split; [reflexivity|]. split; [reflexivity|].
  split; [reflexivity|]. split; reflexivity.
Qed.

Lemma start_then_stop_witness :
  exists p st1 st2,
    parseInt_3000 "3000" = Int p /\ (1 <= p <= 65535)%Z /\
    startCommand parseInt_3000 (Ok (Some "3000")) (Ok tt) idle = (Ok tt, st1) /\
    server st1 = Some (Int p) /\
    notifications st1 = (notifications idle ++ [InformationStarted (Int p)])%list /\
    stopCommand (Ok tt) st1 = (Ok tt, st2) /\
    server st2 = None /\
    notifications st2
    = (notifications st1 ++ [InformationMessage "LLM API Server stopped"])%list.
Proof.
  apply (start_then_stop parseInt_3000 "3000" idle).
  - reflexivity.
  - discriminate.
  - reflexivity.
Defined.

(** X30. Failures of the commands.  With no server held: a dismissed or
    empty input changes nothing at all; a server that fails to start is
    dropped again and the error is shown with its message.  With a
    server held: a stop that fails keeps the server and shows the
    error. *)
Theorem command_failures parseInt st :
  (server st = None ->
   forall input started,
     falsy input = true ->
     startCommand parseInt (Ok input) started st = (Ok tt, st)) /\
  (server st = None ->
   forall entered e,
     entered <> EmptyString ->
     startCommand parseInt (Ok (Some entered)) (Throw e) st
     = (Ok tt, {| server := None;
                  notifications :=
                    (notifications st
                       ++ [ErrorMessage ("Failed to start LLM server: "
                                           ++ message_or e "Unknown error")])%list |})) /\
  (forall p e,
     server st = Some p ->
     stopCommand (Throw e) st
     = (Ok tt, {| server := Some p;
                  notifications :=
                    (notifications st
                       ++ [ErrorMessage ("Failed to stop LLM server: "
                                           ++ message_or e "Unknown error")])%list |})).
Proof.
  split; [|split].
  - intros Hnone input started Hfalsy.
    unfold startCommand. rewrite Hnone.
    unfold try_catch, bind, await. destruct input as [entered|].
    + rewrite Hfalsy. reflexivity.
    + reflexivity.
  - intros Hnone entered e Hentered.
    unfold startCommand. rewrite Hnone.
    unfold try_catch, bind at 1, await at 1. cbn [falsy].
    apply String.eqb_neq in Hentered. rewrite Hentered.
    unfold bind, set_server, await, show, modify. reflexivity.
  - intros p e Hsome.
    unfold stopCommand. rewrite Hsome.
    unfold try_catch, bind, await, show, modify. now rewrite Hsome.
Qed.

Lemma command_failures_witness :
  startCommand parseInt_3000 (Ok (Some "3000")) (Throw (Error "EADDRINUSE")) idle
  = (Ok tt, {| server := None;
               notifications :=
                 (notifications idle
                    ++ [ErrorMessage ("Failed to start LLM server: "
                                        ++ message_or (Error "EADDRINUSE")
                                                      "Unknown error")])%list |}).
Proof.
  apply (proj1 (proj2 (command_failures parseInt_3000 idle))).
  - reflexivity.
  - discriminate.
Defined.
